(** * Metrics and aggregation engine of the marketing dashboard

    A shallow embedding of the computations of [dashboard.py]: the date
    filter and its previous period, the headline and blended KPIs, the
    period-over-period delta, the grouped tables, the rolling-window anomaly
    flags and the budget reallocation simulator.

    Numbers.  The script computes with float64.  Here finite values are exact
    rationals ([Q]); the IEEE special values that a pandas division can
    produce (infinities and NaN) are kept as constructors of [float], so that
    an unguarded division by zero is visible in the model.  A standard
    deviation is the square root of a rational variance; comparisons against
    [mean +- k * std] are decided exactly by squaring, and are related to the
    real-number inequality in [AnomalyFacts.gt_band_real] and
    [AnomalyFacts.lt_band_real].  CSV cells are taken to be finite numbers. *)

From Stdlib Require Import List ZArith QArith Qabs String Ascii Bool Lia.
From Stdlib Require Import Permutation Sorted Reals Qreals Psatz.
Import ListNotations.

Local Open Scope Q_scope.

(** ** Numbers *)

Module Num.

(** A float64 value: a finite number, a signed infinity or NaN. *)
Inductive float : Type :=
| Fin (q : Q)
| Inf (negative : bool)
| NaN.

Definition is_finite (x : float) : bool :=
  match x with Fin _ => true | _ => false end.

(** Equality of two floats up to the representation of the rational. *)
Definition feq (x y : float) : Prop :=
  match x, y with
  | Fin a, Fin b => a == b
  | Inf s, Inf t => s = t
  | NaN, NaN => True
  | _, _ => False
  end.

Definition Qltb (a b : Q) : bool :=
  match a ?= b with Lt => true | _ => false end.

Definition Qeqb (a b : Q) : bool := Qeq_bool a b.

(** pandas / numpy true division of two finite numbers: a zero divisor does
    not raise, it gives NaN for 0/0 and a signed infinity otherwise. *)
Definition fdiv (a b : Q) : float :=
  if Qeqb b 0 then
    (if Qeqb a 0 then NaN else Inf (Qltb a 0))
  else Fin (a / b).

(** A float times a finite constant (the [* 100] of a percentage). *)
Definition fscale (x : float) (k : Q) : float :=
  match x with
  | Fin q => Fin (q * k)
  | Inf s => if Qeqb k 0 then NaN else Inf (xorb s (Qltb k 0))
  | NaN => NaN
  end.

Fixpoint qsum (l : list Q) : Q :=
  match l with
  | [] => 0
  | x :: t => x + qsum t
  end.

Fixpoint zsum (l : list Z) : Z :=
  match l with
  | [] => 0%Z
  | x :: t => (x + zsum t)%Z
  end.

Definition qlen {A} (l : list A) : Q := inject_Z (Z.of_nat (List.length l)).

(** [Series.mean()]: the sum over the count; NaN on an empty series. *)
Definition mean (l : list Q) : float := fdiv (qsum l) (qlen l).

(** [np.where(cond, a, b)] on one row: both branches are already computed,
    the condition selects. *)
Definition np_where (cond : bool) (a b : float) : float :=
  if cond then a else b.

(** Subtraction and division of floats, with the IEEE rules for the special
    values (signed zeros are not distinguished). *)
Definition fsub (x y : float) : float :=
  match x, y with
  | Fin a, Fin b => Fin (a - b)
  | NaN, _ | _, NaN => NaN
  | Inf s, Fin _ => Inf s
  | Fin _, Inf t => Inf (negb t)
  | Inf s, Inf t => if Bool.eqb s t then NaN else Inf s
  end.

Definition fdivf (x y : float) : float :=
  match x, y with
  | Fin a, Fin b => fdiv a b
  | NaN, _ | _, NaN => NaN
  | Inf s, Fin b => Inf (xorb s (Qltb b 0))
  | Fin _, Inf _ => Fin 0
  | Inf _, Inf _ => NaN
  end.

(** [x == 0] on a float: false on NaN and on the infinities. *)
Definition feq0 (x : float) : bool :=
  match x with Fin q => Qeqb q 0 | _ => false end.

(** [x <= y] on floats; every comparison with NaN is false. *)
Definition fleb (x y : float) : bool :=
  match x, y with
  | Fin a, Fin b => Qle_bool a b
  | Inf true, Fin _ => true
  | Inf true, Inf _ => true
  | Fin _, Inf false => true
  | Inf false, Inf false => true
  | _, _ => false
  end.

(** The order of [sort_values(ascending=False)]: larger values first, NaN
    last ([na_position='last']). *)
Definition desc_before (x y : float) : bool :=
  match x, y with
  | _, NaN => true
  | NaN, _ => false
  | _, _ => fleb y x
  end.


End Num.

Export Num.

(** ** Calendar

    A [Timestamp] at day granularity is a day count (days since 1970-01-01,
    proleptic Gregorian calendar); adding or subtracting a [Timedelta] of
    whole days is integer arithmetic on that count. *)

Module Calendar.

Local Open Scope Z_scope.

Definition Timestamp_t := Z.

(** [pd.Timestamp(y, m, d)] / [pd.to_datetime] of a calendar date. *)
Definition Timestamp (y m d : Z) : Timestamp_t :=
  let y' := if m <=? 2 then y - 1 else y in
  let era := y' / 400 in
  let yoe := y' - era * 400 in
  let mp := if 2 <? m then m - 3 else m + 9 in
  let doy := (153 * mp + 2) / 5 + d - 1 in
  let doe := yoe * 365 + yoe / 4 - yoe / 100 + doy in
  era * 146097 + doe - 719468.

(** The civil date (year, month, day) of a day count. *)
Definition civil (t : Timestamp_t) : Z * Z * Z :=
  let z := t + 719468 in
  let era := z / 146097 in
  let doe := z - era * 146097 in
  let yoe := (doe - doe / 1460 + doe / 36524 - doe / 146096) / 365 in
  let doy := doe - (365 * yoe + yoe / 4 - yoe / 100) in
  let mp := (5 * doy + 2) / 153 in
  let d := doy - (153 * mp + 2) / 5 + 1 in
  let m := if mp <? 10 then mp + 3 else mp - 9 in
  let y := yoe + era * 400 in
  ((if m <=? 2 then y + 1 else y), m, d).

(** [pd.Timedelta(days=n)]. *)
Definition Timedelta (days : Z) : Z := days.

(** [(a - b).days]. *)
Definition days_between (a b : Timestamp_t) : Z := a - b.

(** [dt.to_period('M')]: the (year, month) of the date. *)
Definition to_period_M (t : Timestamp_t) : Z * Z :=
  let '(y, m, _) := civil t in (y, m).

Definition period_compare (a b : Z * Z) : comparison :=
  match fst a ?= fst b with
  | Eq => snd a ?= snd b
  | c => c
  end.

End Calendar.

Export Calendar.

(** ** The record store *)

(** One row of [marketing_data.csv]. *)
Record Row : Type := mkRow {
  created_date : Timestamp_t;
  client_name : string;
  industry : string;
  campaign_objective : string;
  amount_spent : Q;
  purchase_value : Q;
  roas : Q;
  cpc : Q;
  ctr_percentage : Q;
  impressions : Z;
  clicks : Z;
  add_to_cart : Z;
  purchase : Z;
  is_weekend : bool;
  is_ramadhan : bool
}.

Definition DataFrame := list Row.

(** ** Data-frame operations *)

Module Frame.

(** [df[c].sum()] for a float column and for an integer column. *)
Definition col_sum (c : Row -> Q) (df : DataFrame) : Q := qsum (map c df).
Definition col_isum (c : Row -> Z) (df : DataFrame) : Z := zsum (map c df).

(** [df[c].mean()]. *)
Definition col_mean (c : Row -> Q) (df : DataFrame) : float := mean (map c df).

(** [series.isin(values)]. *)
Definition isin (x : string) (values : list string) : bool :=
  existsb (String.eqb x) values.

(** [df.empty]. *)
Definition empty (df : DataFrame) : bool :=
  match df with [] => true | _ => false end.

Definition pair_compare (a b : string * string) : comparison :=
  match String.compare (fst a) (fst b) with
  | Eq => String.compare (snd a) (snd b)
  | c => c
  end.

(** The lexicographic order of pairs, the shape of [pair_compare] and of
    [period_compare]. *)
Definition lex_compare {A B : Type} (cmpA : A -> A -> comparison)
    (cmpB : B -> B -> comparison) (x y : A * B) : comparison :=
  match cmpA (fst x) (fst y) with
  | Eq => cmpB (snd x) (snd y)
  | c => c
  end.

Section GroupBy.

Context {K : Type} (cmp : K -> K -> comparison).

Definition key_eqb (a b : K) : bool :=
  match cmp a b with Eq => true | _ => false end.

(** The group keys, each once, in ascending order ([sort=True]). *)
Fixpoint insert_key (k : K) (ks : list K) : list K :=
  match ks with
  | [] => [k]
  | h :: t =>
      match cmp k h with
      | Lt => k :: h :: t
      | Eq => h :: t
      | Gt => h :: insert_key k t
      end
  end.

Definition group_keys (key : Row -> K) (df : DataFrame) : list K :=
  fold_right insert_key [] (map key df).

(** The rows of [df] whose key is [k]. *)
Definition group_of (key : Row -> K) (k : K) (df : DataFrame) : DataFrame :=
  filter (fun r => key_eqb (key r) k) df.

(** [df.groupby(key)]: every key with its rows, keys ascending. *)
Definition groupby (key : Row -> K) (df : DataFrame) : list (K * DataFrame) :=
  map (fun k => (k, group_of key k df)) (group_keys key df).

End GroupBy.

End Frame.

Export Frame.

(** ** Filter engine *)

Module Filter.

Local Open Scope Z_scope.

(** The sidebar mask, applied row by row. *)
Definition mask (selected_clients selected_objectives : list string)
    (start_date end_date : Timestamp_t) (r : Row) : bool :=
  isin (client_name r) selected_clients
  && isin (campaign_objective r) selected_objectives
  && (start_date <=? created_date r)
  && (created_date r <=? end_date).

Definition filtered_df (df : DataFrame)
    (selected_clients selected_objectives : list string)
    (start_date end_date : Timestamp_t) : DataFrame :=
  filter (mask selected_clients selected_objectives start_date end_date) df.

(** The previous period of the current range. *)
Definition delta_days (current_start current_end : Timestamp_t) : Z :=
  days_between current_end current_start.

Definition prev_end (current_start : Timestamp_t) : Timestamp_t :=
  current_start - Timedelta 1.

Definition prev_start (current_start current_end : Timestamp_t) : Timestamp_t :=
  prev_end current_start - Timedelta (delta_days current_start current_end).

Definition mask_prev (selected_clients selected_objectives : list string)
    (current_start current_end : Timestamp_t) (r : Row) : bool :=
  isin (client_name r) selected_clients
  && isin (campaign_objective r) selected_objectives
  && (prev_start current_start current_end <=? created_date r)
  && (created_date r <=? prev_end current_start).

Definition prev_filtered_df (df : DataFrame)
    (selected_clients selected_objectives : list string)
    (current_start current_end : Timestamp_t) : DataFrame :=
  filter (mask_prev selected_clients selected_objectives
            current_start current_end) df.

(** Number of calendar days of the inclusive range [[a, b]]. *)
Definition range_days (a b : Timestamp_t) : Z := b - a + 1.

End Filter.

Export Filter.

(** ** Metrics engine *)

Module Metrics.

(** What [calculate_delta] hands to the metric card before it is formatted:
    a difference in points, or a relative change in percent. *)
Inductive delta : Type :=
| Points (diff : float)
| Percent (percent_change : float).

(** [calculate_delta(current_val, prev_val, is_percentage)]; [None] is the
    card's "no previous data". *)
Definition calculate_delta (current_val prev_val : float)
    (is_percentage : bool) : option delta :=
  if feq0 prev_val then None
  else
    let diff := fsub current_val prev_val in
    let percent_change := fscale (fdivf diff prev_val) 100 in
    if is_percentage then Some (Points diff)
    else Some (Percent percent_change).

(** Current-period headline figures. *)
Definition curr_spend (filtered : DataFrame) : Q := col_sum amount_spent filtered.
Definition curr_purchase (filtered : DataFrame) : Q := col_sum purchase_value filtered.
Definition curr_roas (filtered : DataFrame) : float := col_mean roas filtered.
Definition curr_cpc (filtered : DataFrame) : float := col_mean cpc filtered.
Definition curr_ctr (filtered : DataFrame) : float := col_mean ctr_percentage filtered.

(** Previous-period figures. *)
Definition prev_spend (prev : DataFrame) : Q := col_sum amount_spent prev.
Definition prev_purchase (prev : DataFrame) : Q := col_sum purchase_value prev.
Definition prev_roas (prev : DataFrame) : float :=
  if negb (empty prev) then col_mean roas prev else Fin 0.
Definition prev_cpc (prev : DataFrame) : float :=
  if negb (empty prev) then col_mean cpc prev else Fin 0.
Definition prev_ctr (prev : DataFrame) : float :=
  if negb (empty prev) then col_mean ctr_percentage prev else Fin 0.

(** The five deltas of the headline cards, in card order. *)
Definition headline_deltas (filtered prev : DataFrame) : list (option delta) :=
  [ calculate_delta (Fin (curr_spend filtered)) (Fin (prev_spend prev)) false;
    calculate_delta (Fin (curr_purchase filtered)) (Fin (prev_purchase prev)) false;
    calculate_delta (curr_roas filtered) (prev_roas prev) false;
    calculate_delta (curr_cpc filtered) (prev_cpc prev) false;
    calculate_delta (curr_ctr filtered) (prev_ctr prev) true ].



Definition total_omzet_metric (filtered : DataFrame) : Q :=
  col_sum purchase_value filtered.
Definition total_spend_metric (filtered : DataFrame) : Q :=
  col_sum amount_spent filtered.

Definition overall_roas_metric (filtered : DataFrame) : float :=
  if Qltb 0 (total_spend_metric filtered) then
    fdiv (total_omzet_metric filtered) (total_spend_metric filtered)
  else Fin 0.

Definition sales_only_df (filtered : DataFrame) : DataFrame :=
  filter (fun r => String.eqb (campaign_objective r) "Sales") filtered.

Definition roas_sales_only (filtered : DataFrame) : float :=
  let sales_spend := col_sum amount_spent (sales_only_df filtered) in
  let sales_rev := col_sum purchase_value (sales_only_df filtered) in
  if Qltb 0 sales_spend then fdiv sales_rev sales_spend else Fin 0.


Definition rate (num den : Z) : float :=
  if (0 <? den)%Z then fscale (fdiv (inject_Z num) (inject_Z den)) 100
  else Fin 0.


(** The number carried by a delta. *)
Definition delta_value (d : delta) : float :=
  match d with Points x => x | Percent x => x end.

End Metrics.

Export Metrics.

(** ** Aggregation engine *)

Module Aggregation.

(** A grouped row with summed money columns and a roas column. *)
Record agg_row (K : Type) : Type := mkAgg {
  agg_key : K;
  agg_purchase_value : Q;
  agg_amount_spent : Q;
  agg_roas : float
}.

Arguments mkAgg {K} _ _ _ _.
Arguments agg_key {K} _.
Arguments agg_purchase_value {K} _.
Arguments agg_amount_spent {K} _.
Arguments agg_roas {K} _.

(** [np.where(spend > 0, revenue / spend, 0)] on one grouped row. *)
Definition guarded_roas (revenue spend : Q) : float :=
  np_where (Qltb 0 spend) (fdiv revenue spend) (Fin 0).

(** [groupby(key)[['purchase_value', 'amount_spent']].sum()] followed by the
    guarded roas column. *)
Definition sum_with_roas {K} (cmp : K -> K -> comparison) (key : Row -> K)
    (df : DataFrame) : list (agg_row K) :=
  map (fun kg : K * DataFrame =>
         let pv := col_sum purchase_value (snd kg) in
         let sp := col_sum amount_spent (snd kg) in
         mkAgg (fst kg) pv sp (guarded_roas pv sp))
      (groupby cmp key df).

Definition month (r : Row) : Z * Z := to_period_M (created_date r).

Definition monthly_trend (filtered : DataFrame) : list (agg_row (Z * Z)) :=
  sum_with_roas period_compare month filtered.

Definition client_perf (filtered : DataFrame) : list (agg_row (string * string)) :=
  sum_with_roas pair_compare (fun r => (client_name r, industry r)) filtered.

Definition client_matrix (filtered : DataFrame) : list (agg_row string) :=
  sum_with_roas String.compare client_name filtered.

(** [industry_perf]: sum and mean of revenue and spend, then the roas. *)
Record industry_row : Type := mkIndustry {
  ind_industry : string;
  total_revenue : Q;
  avg_daily_revenue : float;
  total_spend : Q;
  avg_daily_spend : float;
  ind_roas : float
}.

Definition industry_perf (filtered : DataFrame) : list industry_row :=
  map (fun kg : string * DataFrame =>
         let tr := col_sum purchase_value (snd kg) in
         let ts := col_sum amount_spent (snd kg) in
         mkIndustry (fst kg) tr (col_mean purchase_value (snd kg))
                    ts (col_mean amount_spent (snd kg))
                    (guarded_roas tr ts))
      (groupby String.compare industry filtered).

(** [roas_by_obj]: the mean of the [roas] column per objective. *)
Definition roas_by_obj (filtered : DataFrame) : list (string * float) :=
  map (fun kg : string * DataFrame => (fst kg, col_mean roas (snd kg)))
      (groupby String.compare campaign_objective filtered).

(** [ctr_by_obj]: summed clicks and impressions per objective and their
    ratio in percent. *)
Definition ctr_by_obj (filtered : DataFrame) : list (string * Z * Z * float) :=
  map (fun kg : string * DataFrame =>
         let c := col_isum clicks (snd kg) in
         let i := col_isum impressions (snd kg) in
         (fst kg, c, i, fscale (fdiv (inject_Z c) (inject_Z i)) 100))
      (groupby String.compare campaign_objective filtered).

(** [daily_trend]: spend and revenue summed per day, days ascending. *)
Definition daily_trend (filtered : DataFrame) : list (Timestamp_t * Q * Q) :=
  map (fun kg : Timestamp_t * DataFrame =>
         (fst kg, col_sum amount_spent (snd kg), col_sum purchase_value (snd kg)))
      (groupby Z.compare created_date filtered).

(** The sheets of [generate_excel] that are computed from the data. *)
Record workbook : Type := mkWorkbook {
  summary_data : list (string * float);
  daily_data : list (Timestamp_t * Q * Q);
  client_agg : list (agg_row string)
}.

Definition generate_excel (df_source : DataFrame) : workbook :=
  mkWorkbook
    [ ("Total Spend"%string, Fin (col_sum amount_spent df_source));
      ("Total Revenue"%string, Fin (col_sum purchase_value df_source));
      ("Avg ROAS"%string, col_mean roas df_source);
      ("Avg CPC"%string, col_mean cpc df_source);
      ("Avg CTR"%string, fdivf (col_mean ctr_percentage df_source) (Fin 100)) ]
    (daily_trend df_source)
    (map (fun kg : string * DataFrame =>
            let pv := col_sum purchase_value (snd kg) in
            let sp := col_sum amount_spent (snd kg) in
            mkAgg (fst kg) pv sp (fdiv pv sp))
         (groupby String.compare client_name df_source)).

(** The aggregate roas as the ratio of the group's sums, 0 when the group's
    spend is 0: the relation a grouped row is compared with. *)
Definition ratio_of_sums_ok (g : DataFrame) (x : float) : Prop :=
  (0 < col_sum amount_spent g ->
   x = Fin (col_sum purchase_value g / col_sum amount_spent g))
  /\ (col_sum amount_spent g == 0 -> x = Fin 0).

End Aggregation.

Export Aggregation.

(** ** Ranked tables

    [sort_values(by, ascending=False)] is called with the default [kind],
    which pandas documents as not stable: the script fixes the order of the
    metric, not the order among equal metric values.  The sort is therefore
    a parameter, constrained by what the library guarantees. *)

Module Ranking.

Definition sorter := forall A : Type, (A -> float) -> list A -> list A.

(** What [sort_values(ascending=False)] guarantees: the same rows, metric
    descending, NaN last. *)
Definition sort_values_contract (sort_desc : sorter) : Prop :=
  forall (A : Type) (by_ : A -> float) (l : list A),
    Permutation l (sort_desc A by_ l)
    /\ StronglySorted (fun a b => desc_before (by_ a) (by_ b) = true)
                      (sort_desc A by_ l).

Section Ranked.

Variable sort_desc : sorter.




(** [groupby('client_name')['purchase_value'].sum()
      .sort_values(ascending=False).head(1)]. *)
Definition top_client_data (filtered : DataFrame) : list (string * Q) :=
  firstn 1
    (sort_desc _ (fun kv => Fin (snd kv))
       (map (fun kg : string * DataFrame =>
               (fst kg, col_sum purchase_value (snd kg)))
            (groupby String.compare client_name filtered))).

End Ranked.

(** Two sorts that meet the contract: insertion from the right keeps equal
    rows in their incoming order; the second one sorts the reversed list. *)
Fixpoint insert_desc {A} (by_ : A -> float) (x : A) (l : list A) : list A :=
  match l with
  | [] => [x]
  | h :: t =>
      if desc_before (by_ x) (by_ h) then x :: h :: t
      else h :: insert_desc by_ x t
  end.

Definition stable_sort_desc : sorter :=
  fun A by_ l => fold_right (insert_desc by_) [] l.



End Ranking.

Export Ranking.

(** ** Anomaly detector *)

Module Anomaly.

(** A standard deviation: the square root of a rational variance. *)
Record surd : Type := Sqrt { radicand : Q }.

(** [x > m + k * sqrt v] and [x < m - k * sqrt v], decided by squaring
    (for [0 <= k] and [0 <= v]). *)
Definition gt_band (x m k v : Q) : bool :=
  Qltb m x && Qltb (k * k * v) ((x - m) * (x - m)).

Definition lt_band (x m k v : Q) : bool :=
  Qltb x m && Qltb (k * k * v) ((m - x) * (m - x)).

(** The window of [w] points ending at index [i]; none while fewer than [w]
    points are available ([min_periods = window]). *)
Definition window_at (w : nat) (s : list Q) (i : nat) : option (list Q) :=
  if (S i <? w)%nat then None
  else Some (firstn w (skipn (S i - w) s)).

Definition window_mean (l : list Q) : Q := qsum l / qlen l.

(** Variance with divisor [n - 1], the default [ddof = 1] of [.std()]. *)
Definition window_var (l : list Q) : Q :=
  qsum (map (fun x => (x - window_mean l) * (x - window_mean l)) l)
  / (qlen l - 1).

(** [series.rolling(window=w).mean()] and [.std()]; [None] is NaN. *)
Definition rolling_mean (w : nat) (s : list Q) : list (option Q) :=
  map (fun i => option_map window_mean (window_at w s i)) (seq 0 (List.length s)).

Definition rolling_std (w : nat) (s : list Q) : list (option surd) :=
  map (fun i => option_map (fun l => Sqrt (window_var l)) (window_at w s i))
      (seq 0 (List.length s)).

(** One entry of the [is_anomaly] column: a comparison with NaN is false. *)
Definition is_anomaly_at (x : Q) (m : option Q) (sd : option surd) : bool :=
  match m, sd with
  | Some m, Some (Sqrt v) => gt_band x m 2 v || lt_band x m 2 v
  | _, _ => false
  end.

Fixpoint zip3 (xs : list Q) (ms : list (option Q)) (sds : list (option surd))
    : list bool :=
  match xs, ms, sds with
  | x :: xs', m :: ms', sd :: sds' => is_anomaly_at x m sd :: zip3 xs' ms' sds'
  | _, _, _ => []
  end.

Definition is_anomaly (s : list Q) : list bool :=
  zip3 s (rolling_mean 7 s) (rolling_std 7 s).

(** Positions of the flagged rows. *)
Fixpoint flagged_from (i : nat) (flags : list bool) : list nat :=
  match flags with
  | [] => []
  | b :: t => if b then i :: flagged_from (S i) t else flagged_from (S i) t
  end.

(** The detector on a daily series: positions of the anomalous points. *)
Definition detect (s : list Q) : list nat :=
  if (7 <? List.length s)%nat then flagged_from 0 (is_anomaly s) else [].

(** [anomalies] of the overview tab: the flagged rows of [daily_trend]. *)
Definition anomalies (filtered : DataFrame) : list (Timestamp_t * Q * Q) :=
  let dt := daily_trend filtered in
  let flagged := detect (map snd dt) in
  map (fun i => nth i dt (0%Z, 0, 0)) flagged.


End Anomaly.

Export Anomaly.

(** ** Reallocation simulator *)

Module Simulator.

Record projection : Type := mkProjection {
  transfer_amount : Q;
  rev_lost : Q;
  rev_gained : Q;
  net_revenue_impact : Q;
  new_total_rev : Q;
  old_global_roas : Q;
  new_global_roas : Q
}.

(** The client-to-client simulator: [source_spend] and [source_roas] are the
    [amount_spent] and [roas] of the source row of [client_matrix],
    [target_roas] the [roas] of the target row. *)
Definition simulate (source_spend source_roas target_roas : Q)
    (transfer_pct : Z) (current_total_rev total_spend_global : Q) : projection :=
  let transfer_amount := source_spend * (inject_Z transfer_pct / 100) in
  let rev_lost := transfer_amount * source_roas in
  let rev_gained := transfer_amount * target_roas in
  let net_revenue_impact := rev_gained - rev_lost in
  let new_total_rev := current_total_rev + net_revenue_impact in
  let old_global_roas :=
    if Qltb 0 total_spend_global then current_total_rev / total_spend_global
    else 0 in
  let new_global_roas :=
    if Qltb 0 total_spend_global then new_total_rev / total_spend_global
    else 0 in
  mkProjection transfer_amount rev_lost rev_gained net_revenue_impact
               new_total_rev old_global_roas new_global_roas.

End Simulator.

Export Simulator.

(** ** Highlights, seasonality and strategy figures *)

Module Insights.

(** [x > 0] on a float: false on NaN. *)
Definition fgt0 (x : float) : bool :=
  match x with
  | Fin q => Qltb 0 q
  | Inf negative => negb negative
  | NaN => false
  end.



(** Insight 1, market dominance: the share of the top client in the total
    revenue; [None] is the "not enough data" sentence of an empty view. *)
Definition dominance_pct (sort_desc : sorter) (filtered : DataFrame)
    : option (string * float) :=
  if negb (empty filtered) then
    match top_client_data sort_desc filtered with
    | (top_client_name, top_client_val) :: _ =>
        let total_rev := col_sum purchase_value filtered in
        Some (top_client_name,
              if Qltb 0 total_rev
              then fscale (fdiv top_client_val total_rev) 100
              else Fin 0)
    | [] => None
    end
  else None.

(** Insight 2, cost trend: the word and the percentage of the sentence;
    [None] is "comparison not available". *)
Definition cost_trend (filtered prev : DataFrame) : option (string * Q) :=
  if negb (empty prev) then
    let spend_diff := curr_spend filtered - prev_spend prev in
    let spend_pct :=
      if Qltb 0 (prev_spend prev) then spend_diff / prev_spend prev * 100
      else 0 in
    let trend_text :=
      if Qltb 0 spend_diff then "naik"%string else "turun"%string in
    Some (trend_text, Qabs spend_pct)
  else None.

(** [series.idxmax()] on a column without NaN: the position of the first
    occurrence of the maximum; [None] on an empty column, where pandas
    raises. *)
Fixpoint idxmax_from (i best_i : nat) (best : Q) (l : list Q) : nat :=
  match l with
  | [] => best_i
  | x :: t =>
      if Qltb best x then idxmax_from (S i) i x t
      else idxmax_from (S i) best_i best t
  end.

Definition idxmax (l : list Q) : option nat :=
  match l with
  | [] => None
  | x :: t => Some (idxmax_from 1 0 x t)
  end.

(** [best_month_row]: the row of [monthly_trend] with the largest revenue. *)
Definition best_month_row (filtered : DataFrame) : option (agg_row (Z * Z)) :=
  match idxmax (map agg_purchase_value (monthly_trend filtered)) with
  | Some i => nth_error (monthly_trend filtered) i
  | None => None
  end.

(** The lift of a flagged class of days over the others, in percent
    ([ramadhan_lift] with [is_ramadhan], [weekend_lift] with [is_weekend]). *)
Definition lift (flag : Row -> bool) (filtered : DataFrame) : float :=
  let avg_rev_flagged := col_mean purchase_value (filter flag filtered) in
  let avg_rev_other :=
    col_mean purchase_value (filter (fun r => negb (flag r)) filtered) in
  if fgt0 avg_rev_other then
    fscale (fdivf (fsub avg_rev_flagged avg_rev_other) avg_rev_other) 100
  else Fin 0.

Definition ramadhan_lift (filtered : DataFrame) : float := lift is_ramadhan filtered.
Definition weekend_lift (filtered : DataFrame) : float := lift is_weekend filtered.

(** The quadrant's spend threshold. *)
Definition avg_spend_client (filtered : DataFrame) : float :=
  mean (map agg_amount_spent (client_matrix filtered)).

(** The Traffic-to-Sales reallocation figures. *)
Definition traffic_spend (filtered : DataFrame) : Q :=
  col_sum amount_spent
    (filter (fun r => String.eqb (campaign_objective r) "Traffic"%string)
            filtered).

Definition sales_roas_benchmark (filtered : DataFrame) : Q :=
  let sales_only_data := sales_only_df filtered in
  if negb (empty sales_only_data)
     && Qltb 0 (col_sum amount_spent sales_only_data)
  then col_sum purchase_value sales_only_data
       / col_sum amount_spent sales_only_data
  else 162 # 100.

Definition budget_moved (filtered : DataFrame) (reallocation_pct : Z) : Q :=
  traffic_spend filtered * (inject_Z reallocation_pct / 100).

Definition potential_revenue_gain (filtered : DataFrame)
    (reallocation_pct : Z) : Q :=
  budget_moved filtered reallocation_pct * sales_roas_benchmark filtered.

Definition projected_growth_pct (filtered : DataFrame)
    (reallocation_pct : Z) : Q :=
  let current_total_rev := col_sum purchase_value filtered in
  if Qltb 0 current_total_rev
  then potential_revenue_gain filtered reallocation_pct / current_total_rev * 100
  else 0.

(** [series.unique()]: every value once, in order of first appearance. *)
Fixpoint unique (l : list string) : list string :=
  match l with
  | [] => []
  | x :: t => x :: filter (fun y => negb (String.eqb y x)) (unique t)
  end.

(** The clients offered as the target of the client-to-client simulator. *)
Definition target_opts (sort_desc : sorter) (filtered : DataFrame)
    (source_client : string) : list string :=
  let client_roas_desc := sort_desc _ agg_roas (client_matrix filtered) in
  filter (fun c => negb (String.eqb c source_client))
         (unique (map agg_key client_roas_desc)).

(** The verdict shown under the projection: [true] is "Positif" and the
    success box, [false] is "Negatif" and the warning box. *)
Definition verdict (p : projection) : bool := Qltb 0 (net_revenue_impact p).

End Insights.

Export Insights.

(** ** Fixtures *)

Module Fixtures.

Definition row (d : Timestamp_t) (client ind obj : string)
    (spent value : Q) (imp clk : Z) : Row :=
  mkRow d client ind obj spent value
        (if Qeqb spent 0 then 0 else value / spent)
        (if (clk =? 0)%Z then 0 else spent / inject_Z clk)
        (if (imp =? 0)%Z then 0 else inject_Z clk / inject_Z imp * 100)
        imp clk 0 0 false false.

(** Two Sales records of one client whose per-record roas are 1 and 3. *)
Definition two_sales : DataFrame :=
  [ row (Timestamp 2023 3 1) "Client A" "Fashion" "Sales" 100 100 1000 10;
    row (Timestamp 2023 3 2) "Client A" "Fashion" "Sales" 300 900 1000 30 ].

(** A client that spent nothing and earned nothing, next to a paying one. *)
Definition zero_spend : DataFrame :=
  [ row (Timestamp 2023 3 1) "Client A" "Fashion" "Sales" 100 200 1000 10;
    row (Timestamp 2023 3 1) "Client Z" "Beauty" "Traffic" 0 0 0 0 ].


(** Ten days at 100 with 1000 on the eighth day. *)
Definition spike_series : list Q :=
  [100; 100; 100; 100; 100; 100; 100; 1000; 100; 100].

(** Ten days of one client, revenue 100 a day with 1000 on 2023-03-08. *)
Definition spike_view : DataFrame :=
  map (fun dv : Z * Q =>
         row (Timestamp 2023 3 (fst dv)) "Client A" "Fashion" "Sales"
             50 (snd dv) 1000 10)
      (combine [1; 2; 3; 4; 5; 6; 7; 8; 9; 10]%Z spike_series).

End Fixtures.

Export Fixtures.

(** * Properties *)

(** ** Facts about the numbers *)

Module NumFacts.

Lemma Qltb_lt (a b : Q) : Qltb a b = true <-> a < b.
Proof.
  unfold Qltb. rewrite Qlt_alt. destruct (a ?= b); split; congruence.
Qed.

Lemma Qltb_ge (a b : Q) : Qltb a b = false <-> b <= a.
Proof.
  split; intro H.
  - apply Qnot_lt_le. intro L. apply Qltb_lt in L. congruence.
  - destruct (Qltb a b) eqn:E; [|reflexivity].
    apply Qltb_lt in E. exfalso. apply (Qlt_not_le _ _ E H).
Qed.

Lemma Qeqb_eq (a b : Q) : Qeqb a b = true <-> a == b.
Proof. unfold Qeqb. apply Qeq_bool_iff. Qed.

Lemma Qeqb_neq (a b : Q) : Qeqb a b = false <-> ~ a == b.
Proof.
  rewrite <- Qeqb_eq. destruct (Qeqb a b); split; intro H; congruence.
Qed.

Lemma fdiv_pos (a b : Q) : 0 < b -> fdiv a b = Fin (a / b).
Proof.
  intro H. unfold fdiv.
  destruct (Qeqb b 0) eqn:E; [|reflexivity].
  apply Qeqb_eq in E. rewrite E in H. exfalso. apply (Qlt_irrefl _ H).
Qed.

Lemma fdiv_nonzero (a b : Q) : ~ b == 0 -> fdiv a b = Fin (a / b).
Proof.
  intro H. unfold fdiv. apply Qeqb_neq in H. rewrite H. reflexivity.
Qed.

Lemma fdiv_zero_not_finite (a : Q) : is_finite (fdiv a 0) = false.
Proof. unfold fdiv. simpl. destruct (Qeqb a 0); reflexivity. Qed.

Lemma qlen_cons_pos {A} (x : A) (l : list A) : 0 < qlen (x :: l).
Proof.
  unfold qlen. change 0 with (inject_Z 0). rewrite <- Zlt_Qlt.
  simpl List.length. lia.
Qed.

Lemma mean_nonempty (l : list Q) :
  l <> [] -> mean l = Fin (qsum l / qlen l).
Proof.
  destruct l as [|x t]; [congruence|]. intros _.
  apply fdiv_pos. apply qlen_cons_pos.
Qed.

Lemma qsum_app (l1 l2 : list Q) : qsum (l1 ++ l2) == qsum l1 + qsum l2.
Proof.
  induction l1 as [|x t IH]; simpl.
  - ring.
  - rewrite IH. ring.
Qed.


Lemma Qltb_irrefl (a : Q) : Qltb a a = false.
Proof. apply Qltb_ge. apply Qle_refl. Qed.

Lemma guarded_roas_pos (rev sp : Q) :
  0 < sp -> guarded_roas rev sp = Fin (rev / sp).
Proof.
  intro H. unfold guarded_roas, np_where.
  apply Qltb_lt in H as Hb. rewrite Hb. apply fdiv_pos, H.
Qed.

Lemma guarded_roas_nonpos (rev sp : Q) :
  sp <= 0 -> guarded_roas rev sp = Fin 0.
Proof.
  intro H. unfold guarded_roas, np_where.
  apply Qltb_ge in H. rewrite H. reflexivity.
Qed.

Lemma guarded_roas_finite (rev sp : Q) :
  is_finite (guarded_roas rev sp) = true.
Proof.
  destruct (Qlt_le_dec 0 sp) as [H|H].
  - rewrite guarded_roas_pos by assumption. reflexivity.
  - rewrite guarded_roas_nonpos by assumption. reflexivity.
Qed.

(** The sign of a product with a positive factor. *)
Lemma Qmult_pos_sign (a b : Q) :
  0 < a ->
  (0 < a * b <-> 0 < b) /\ (a * b == 0 <-> b == 0) /\ (a * b < 0 <-> b < 0).
Proof.
  intro Ha. repeat split; intro H; nra.
Qed.

End NumFacts.

Import NumFacts.

(** ** The reallocation simulator *)

Module SimulatorFacts.


Lemma global_roas_pos (ss sr tr : Q) (pct : Z) (rev gts : Q) :
  0 < gts ->
  let p := simulate ss sr tr pct rev gts in
  old_global_roas p = rev / gts
  /\ new_global_roas p = (rev + net_revenue_impact p) / gts.
Proof.
  intro H. apply Qltb_lt in H. simpl. rewrite H. split; reflexivity.
Qed.

(** C3. The simulator computes [transfer_amount = source_spend *
    transfer_pct / 100], [revenue_lost = transfer_amount * source_roas],
    [revenue_gained = transfer_amount * target_roas], [net_impact =
    revenue_gained - revenue_lost] and, over the unchanged global spend,
    [new_global_roas = (global_current_revenue + net_impact) /
    global_total_spend]; for a source spend of 1,000,000 at roas 0.5, a
    target roas of 2.0 and a transfer of 50 percent it gives 500,000,
    250,000, 1,000,000 and 750,000. *)
Theorem simulate_linear_model :
  (forall (source_spend source_roas target_roas : Q) (transfer_pct : Z)
          (global_current_revenue global_total_spend : Q),
      let p := simulate source_spend source_roas target_roas transfer_pct
                        global_current_revenue global_total_spend in
      transfer_amount p == source_spend * inject_Z transfer_pct / 100
      /\ rev_lost p == transfer_amount p * source_roas
      /\ rev_gained p == transfer_amount p * target_roas
      /\ net_revenue_impact p == rev_gained p - rev_lost p
      /\ new_total_rev p == global_current_revenue + net_revenue_impact p
      /\ (0 < global_total_spend ->
          old_global_roas p == global_current_revenue / global_total_spend
          /\ new_global_roas p
             == (global_current_revenue + net_revenue_impact p)
                / global_total_spend))
  /\ (forall global_current_revenue global_total_spend : Q,
        let p := simulate 1000000 (1 # 2) 2 50
                          global_current_revenue global_total_spend in
        transfer_amount p == 500000
        /\ rev_lost p == 250000
        /\ rev_gained p == 1000000
        /\ net_revenue_impact p == 750000).
Proof.
  split.
  - intros ss sr tr pct rev gts p.
    split; [subst p; simpl; field|].
    do 4 (split; [subst p; simpl; reflexivity|]).
    intro H.
    destruct (global_roas_pos ss sr tr pct rev gts H) as [Ho Hn].
    fold p in Ho, Hn. rewrite Ho, Hn. split; reflexivity.
  - intros rev gts p. subst p. simpl. repeat split; reflexivity.
Qed.

Lemma simulate_linear_model_witness :
  new_global_roas (simulate 1000000 (1 # 2) 2 50 3000000 2000000)
  == (3000000 + net_revenue_impact
                  (simulate 1000000 (1 # 2) 2 50 3000000 2000000)) / 2000000.
Proof.
  destruct simulate_linear_model as [G _].
  destruct (G 1000000 (1 # 2) 2 50%Z 3000000 2000000)
    as (_ & _ & _ & _ & _ & H).
  apply H. reflexivity.
Defined.



End SimulatorFacts.

(** ** The filter engine and the previous period *)

Module FilterFacts.

Local Open Scope Z_scope.

Example timestamp_2023_03_01 : Timestamp 2023 3 1 = 19417.
Proof. reflexivity. Qed.

Example civil_leap_day : civil (Timestamp 2024 2 29) = (2024, 2, 29).
Proof. reflexivity. Qed.

Example period_of_day : to_period_M (Timestamp 2023 12 31) = (2023, 12).
Proof. reflexivity. Qed.

Lemma mask_iff (cl ob : list string) (a b : Timestamp_t) (r : Row) :
  mask cl ob a b r = true <->
  isin (client_name r) cl = true /\ isin (campaign_objective r) ob = true
  /\ a <= created_date r <= b.
Proof.
  unfold mask. rewrite !andb_true_iff, !Z.leb_le. tauto.
Qed.

Lemma mask_prev_is_mask (cl ob : list string) (a b : Timestamp_t) (r : Row) :
  mask_prev cl ob a b r = mask cl ob (prev_start a b) (prev_end a) r.
Proof. reflexivity. Qed.

(** C4. For a current range [[start, end]] with [start <= end] the previous
    period ends the day before [start] and starts [(end - start).days]
    earlier, so it spans as many days as the current range; for 2023-03-01
    to 2023-03-10 it is 2023-02-19 to 2023-02-28; the previous view keeps
    the rows of the selected clients and objectives dated in that range. *)
Theorem previous_period_same_length :
  (forall (df : DataFrame) (selected_clients selected_objectives : list string)
          (start_date end_date : Timestamp_t),
      start_date <= end_date ->
      prev_end start_date = start_date - 1
      /\ prev_start start_date end_date
         = prev_end start_date - days_between end_date start_date
      /\ range_days (prev_start start_date end_date) (prev_end start_date)
         = range_days start_date end_date
      /\ prev_start start_date end_date <= prev_end start_date < start_date
      /\ (forall r,
            In r (prev_filtered_df df selected_clients selected_objectives
                    start_date end_date)
            <-> In r df
                /\ isin (client_name r) selected_clients = true
                /\ isin (campaign_objective r) selected_objectives = true
                /\ prev_start start_date end_date <= created_date r
                   <= prev_end start_date)
      /\ (forall r,
            In r (filtered_df df selected_clients selected_objectives
                    start_date end_date)
            <-> In r df
                /\ isin (client_name r) selected_clients = true
                /\ isin (campaign_objective r) selected_objectives = true
                /\ start_date <= created_date r <= end_date))
  /\ prev_start (Timestamp 2023 3 1) (Timestamp 2023 3 10) = Timestamp 2023 2 19
  /\ prev_end (Timestamp 2023 3 1) = Timestamp 2023 2 28
  /\ range_days (Timestamp 2023 3 1) (Timestamp 2023 3 10) = 10.
Proof.
  split; [|repeat split].
  intros df cl ob a b Hab.
  cbv [prev_end prev_start delta_days days_between Timedelta range_days].
  unfold Timestamp_t in *.
  split; [reflexivity|]. split; [reflexivity|].
  split; [lia|]. split; [lia|].
  split; intro r.
  - unfold prev_filtered_df. rewrite filter_In, mask_prev_is_mask, mask_iff.
    cbv [prev_end prev_start delta_days days_between Timedelta]. tauto.
  - unfold filtered_df. rewrite filter_In, mask_iff. tauto.
Qed.

Lemma previous_period_same_length_witness :
  range_days (prev_start (Timestamp 2023 3 1) (Timestamp 2023 3 10))
             (prev_end (Timestamp 2023 3 1))
  = range_days (Timestamp 2023 3 1) (Timestamp 2023 3 10).
Proof.
  destruct previous_period_same_length as [G _].
  destruct (G [] [] [] (Timestamp 2023 3 1) (Timestamp 2023 3 10))
    as (_ & _ & H & _).
  - vm_compute. discriminate.
  - exact H.
Defined.

End FilterFacts.

(** ** The metrics engine *)

Module MetricsFacts.

Lemma col_mean_nonempty (c : Row -> Q) (df : DataFrame) :
  df <> [] -> col_mean c df = Fin (col_sum c df / qlen df).
Proof.
  intro H. unfold col_mean, col_sum.
  rewrite mean_nonempty.
  - unfold qlen. rewrite length_map. reflexivity.
  - destruct df; [congruence|discriminate].
Qed.

Lemma calculate_delta_zero (c p : float) (b : bool) :
  feq0 p = true -> calculate_delta c p b = None.
Proof. intro H. unfold calculate_delta. rewrite H. reflexivity. Qed.

Lemma calculate_delta_finite (c p : Q) (b : bool) :
  ~ p == 0 ->
  calculate_delta (Fin c) (Fin p) b
  = Some (if b then Points (Fin (c - p))
          else Percent (Fin ((c - p) / p * 100))).
Proof.
  intro H. unfold calculate_delta. simpl feq0.
  apply Qeqb_neq in H as Hb. rewrite Hb. simpl fsub. simpl fdivf.
  rewrite fdiv_nonzero by assumption. destruct b; reflexivity.
Qed.

(** C7 as stated fails: for a percentage-point metric the script reports the
    difference in points, not the relative change. *)
Lemma delta_is_not_always_relative :
  ~ (forall (c p : Q) (is_percentage : bool),
        ~ p == 0 ->
        exists d, calculate_delta (Fin c) (Fin p) is_percentage = Some d
                  /\ feq (delta_value d) (Fin ((c - p) / p * 100))).
Proof.
  intro H. destruct (H 3 2 true) as (d & Hd & Hv).
  - discriminate.
  - vm_compute in Hd. injection Hd as <-. vm_compute in Hv. discriminate.
Qed.

(** C7, amended. [calculate_delta] gives no delta when the previous value is
    0; otherwise it gives the relative change [(current - previous) /
    previous * 100] for a plain metric and the difference [current -
    previous] in points for a percentage-point metric; when the previous
    view is empty, all five headline deltas are unavailable. *)
Theorem calculate_delta_by_family :
  (forall (c p : float) (is_percentage : bool),
      feq0 p = true -> calculate_delta c p is_percentage = None)
  /\ (forall c p : Q,
        ~ p == 0 ->
        calculate_delta (Fin c) (Fin p) false
        = Some (Percent (Fin ((c - p) / p * 100))))
  /\ (forall c p : Q,
        ~ p == 0 ->
        calculate_delta (Fin c) (Fin p) true = Some (Points (Fin (c - p))))
  /\ (forall filtered : DataFrame,
        headline_deltas filtered [] = [None; None; None; None; None]).
Proof.
  split; [exact calculate_delta_zero|].
  split; [intros c p H; exact (calculate_delta_finite c p false H)|].
  split; [intros c p H; exact (calculate_delta_finite c p true H)|].
  intro filtered. unfold headline_deltas.
  rewrite !calculate_delta_zero; reflexivity.
Qed.

Lemma calculate_delta_by_family_witness :
  calculate_delta (Fin 3) (Fin 2) false
  = Some (Percent (Fin ((3 - 2) / 2 * 100))).
Proof.
  destruct calculate_delta_by_family as (_ & H & _).
  apply (H 3 2). discriminate.
Defined.



End MetricsFacts.

(** ** The aggregation engine *)

Module AggregationFacts.

Lemma in_groupby {K} (cmp : K -> K -> comparison) (key : Row -> K)
    (df : DataFrame) (kg : K * DataFrame) :
  In kg (groupby cmp key df) -> snd kg = group_of cmp key (fst kg) df.
Proof.
  unfold groupby. rewrite in_map_iff. intros (k & <- & _). reflexivity.
Qed.

Lemma string_compare_refl (k : string) : String.compare k k = Eq.
Proof.
  pose proof (String.compare_antisym k k) as H.
  destruct (String.compare k k); simpl in H; congruence.
Qed.

(** A group keyed by a string holds exactly the rows with that key. *)
Lemma group_of_string (key : Row -> string) (k : string) (df : DataFrame)
    (r : Row) :
  In r (group_of String.compare key k df) <-> In r df /\ key r = k.
Proof.
  unfold group_of, key_eqb. rewrite filter_In.
  destruct (String.compare (key r) k) eqn:E.
  - apply String.compare_eq_iff in E. tauto.
  - split; [intros [_ H]; discriminate|].
    intros [_ H]. rewrite H in E.
    rewrite string_compare_refl in E. discriminate.
  - split; [intros [_ H]; discriminate|].
    intros [_ H]. rewrite H in E.
    rewrite string_compare_refl in E. discriminate.
Qed.

Lemma guarded_roas_ok (g : DataFrame) :
  ratio_of_sums_ok g
    (guarded_roas (col_sum purchase_value g) (col_sum amount_spent g)).
Proof.
  split; intro H.
  - apply guarded_roas_pos, H.
  - apply guarded_roas_nonpos. rewrite H. apply Qle_refl.
Qed.

Lemma sum_with_roas_ok {K} (cmp : K -> K -> comparison) (key : Row -> K)
    (df : DataFrame) (row : agg_row K) :
  In row (sum_with_roas cmp key df) ->
  let g := group_of cmp key (agg_key row) df in
  agg_purchase_value row = col_sum purchase_value g
  /\ agg_amount_spent row = col_sum amount_spent g
  /\ ratio_of_sums_ok g (agg_roas row).
Proof.
  unfold sum_with_roas. rewrite in_map_iff. intros (kg & <- & Hin).
  apply in_groupby in Hin. simpl. rewrite Hin.
  repeat split; try reflexivity; apply guarded_roas_ok.
Qed.

Lemma industry_perf_ok (df : DataFrame) (row : industry_row) :
  In row (industry_perf df) ->
  let g := group_of String.compare industry (ind_industry row) df in
  total_revenue row = col_sum purchase_value g
  /\ total_spend row = col_sum amount_spent g
  /\ ratio_of_sums_ok g (ind_roas row).
Proof.
  unfold industry_perf. rewrite in_map_iff. intros (kg & <- & Hin).
  apply in_groupby in Hin. simpl. rewrite Hin.
  repeat split; try reflexivity; apply guarded_roas_ok.
Qed.

Lemma roas_by_obj_mean (df : DataFrame) (k : string) (x : float) :
  In (k, x) (roas_by_obj df) ->
  x = mean (map roas (group_of String.compare campaign_objective k df)).
Proof.
  unfold roas_by_obj. rewrite in_map_iff. intros (kg & E & Hin).
  apply in_groupby in Hin. injection E as <- <-. rewrite Hin. reflexivity.
Qed.

(** C1 as stated fails on the objective dimension: for two Sales records
    with roas 1 and 3 the objective table carries the mean 2, while the
    ratio of the sums is 1000 / 400. *)
Lemma objective_roas_is_mean_of_ratios :
  exists (k : string) (x : float),
    In (k, x) (roas_by_obj two_sales)
    /\ feq x (Fin 2)
    /\ col_sum purchase_value
         (group_of String.compare campaign_objective k two_sales)
       / col_sum amount_spent
           (group_of String.compare campaign_objective k two_sales)
       == 5 # 2
    /\ ~ ratio_of_sums_ok
           (group_of String.compare campaign_objective k two_sales) x.
Proof.
  exists "Sales"%string, (mean (map roas two_sales)).
  split; [vm_compute; left; reflexivity|].
  split; [vm_compute; reflexivity|].
  split; [vm_compute; reflexivity|].
  intros [H _].
  assert (P : 0 < col_sum amount_spent
                    (group_of String.compare campaign_objective
                       "Sales"%string two_sales)) by (vm_compute; reflexivity).
  specialize (H P). vm_compute in H. discriminate.
Qed.

(** C1, amended. In the monthly, industry, (client, industry) and client
    tables the roas of a group is the group's summed revenue over its summed
    spend when that spend is positive and 0 when it is 0; the objective
    table carries the mean of the per-record roas of the group. *)
Theorem grouped_roas_by_table (filtered : DataFrame) :
  (forall row, In row (monthly_trend filtered) ->
     ratio_of_sums_ok (group_of period_compare month (agg_key row) filtered)
                      (agg_roas row))
  /\ (forall row, In row (industry_perf filtered) ->
        ratio_of_sums_ok
          (group_of String.compare industry (ind_industry row) filtered)
          (ind_roas row))
  /\ (forall row, In row (client_perf filtered) ->
        ratio_of_sums_ok
          (group_of pair_compare (fun r => (client_name r, industry r))
                    (agg_key row) filtered)
          (agg_roas row))
  /\ (forall row, In row (client_matrix filtered) ->
        ratio_of_sums_ok
          (group_of String.compare client_name (agg_key row) filtered)
          (agg_roas row)
        /\ (forall r,
              In r (group_of String.compare client_name (agg_key row) filtered)
              <-> In r filtered /\ client_name r = agg_key row))
  /\ (forall k x, In (k, x) (roas_by_obj filtered) ->
        x = mean (map roas
                    (group_of String.compare campaign_objective k filtered))).
Proof.
  split; [intros row H; apply (sum_with_roas_ok _ _ _ _ H)|].
  split; [intros row H; apply (industry_perf_ok _ _ H)|].
  split; [intros row H; apply (sum_with_roas_ok _ _ _ _ H)|].
  split.
  - intros row H. split; [apply (sum_with_roas_ok _ _ _ _ H)|].
    intro r. apply group_of_string.
  - intros k x H. apply roas_by_obj_mean, H.
Qed.

Lemma grouped_roas_by_table_witness :
  ratio_of_sums_ok
    (group_of String.compare client_name "Client A"%string two_sales)
    (Fin (1000 / 400)).
Proof.
  destruct (grouped_roas_by_table two_sales) as (_ & _ & _ & H & _).
  destruct (H (mkAgg "Client A"%string 1000 400 (Fin (1000 / 400)))) as [R _].
  - vm_compute. left. reflexivity.
  - exact R.
Defined.


Lemma overall_roas_metric_finite (df : DataFrame) :
  is_finite (overall_roas_metric df) = true.
Proof. apply guarded_roas_finite. Qed.

Lemma client_matrix_finite (df : DataFrame) :
  forallb (fun row => is_finite (agg_roas row)) (client_matrix df) = true.
Proof.
  apply forallb_forall. intros row.
  unfold client_matrix, sum_with_roas. rewrite in_map_iff.
  intros (kg & <- & _). apply guarded_roas_finite.
Qed.

Example funnel_rates_fixture :
  let '(ctr, atc_rate, cart_conv, overall_cv) :=
    (rate 200 10000, rate 40 200, rate 10 40, rate 10 200) in
  feq ctr (Fin 2) /\ feq atc_rate (Fin 20) /\ feq cart_conv (Fin 25)
  /\ feq overall_cv (Fin 5).
Proof. vm_compute. repeat split; reflexivity. Qed.

(** C6. The claim holds for the guarded figures but the export does not
    guard its ratio: for a client whose summed spend is 0 the Client
    Performance sheet of [generate_excel] carries NaN where the dashboard's
    client table carries 0, and the per-objective ctr chart carries NaN for
    an objective without impressions. *)
Theorem export_roas_unguarded :
  map agg_roas (client_matrix zero_spend) = [Fin (200 / 100); Fin 0]
  /\ map agg_roas (client_agg (generate_excel zero_spend))
     = [Fin (200 / 100); NaN]
  /\ map (fun row => is_finite (snd row)) (ctr_by_obj zero_spend)
     = [true; false].
Proof. repeat split; vm_compute; reflexivity. Qed.

End AggregationFacts.

(** ** The anomaly detector *)

Module AnomalyFacts.

(** *** The band test against the real-number inequalities *)






(** *** The variance is a sum of squares over [n - 1] *)





(** *** Windows *)


Lemma window_at_none (w : nat) (s : list Q) (i : nat) :
  (S i < w)%nat -> window_at w s i = None.
Proof.
  intro H. unfold window_at. apply Nat.ltb_lt in H. rewrite H. reflexivity.
Qed.


(** *** The flag column, position by position *)

Lemma zip3_nth (f : nat -> option Q) (g : nat -> option surd) (s : list Q) :
  forall (a i : nat),
    (i < List.length s)%nat ->
    nth i (zip3 s (map f (seq a (List.length s))) (map g (seq a (List.length s))))
        false
    = is_anomaly_at (nth i s 0) (f (a + i)%nat) (g (a + i)%nat).
Proof.
  induction s as [|x t IH]; intros a i Hi; simpl in Hi; [lia|].
  simpl. destruct i as [|i].
  - rewrite Nat.add_0_r. reflexivity.
  - rewrite IH by lia. rewrite Nat.add_succ_r. reflexivity.
Qed.

Lemma zip3_length (f : nat -> option Q) (g : nat -> option surd) (s : list Q) :
  forall a : nat,
    List.length
      (zip3 s (map f (seq a (List.length s))) (map g (seq a (List.length s))))
    = List.length s.
Proof.
  induction s as [|x t IH]; intro a; simpl; [reflexivity|].
  rewrite IH. reflexivity.
Qed.

Lemma is_anomaly_nth (s : list Q) (i : nat) :
  (i < List.length s)%nat ->
  nth i (is_anomaly s) false
  = is_anomaly_at (nth i s 0)
      (option_map window_mean (window_at 7 s i))
      (option_map (fun l => Sqrt (window_var l)) (window_at 7 s i)).
Proof.
  intro H. unfold is_anomaly, rolling_mean, rolling_std.
  rewrite (zip3_nth (fun i => option_map window_mean (window_at 7 s i))
             (fun i => option_map (fun l => Sqrt (window_var l))
                         (window_at 7 s i)) s 0 i H).
  reflexivity.
Qed.

Lemma is_anomaly_length (s : list Q) :
  List.length (is_anomaly s) = List.length s.
Proof. unfold is_anomaly, rolling_mean, rolling_std. apply zip3_length. Qed.

Lemma flagged_from_spec (flags : list bool) :
  forall a i : nat,
    In i (flagged_from a flags)
    <-> (a <= i)%nat /\ nth (i - a) flags false = true.
Proof.
  induction flags as [|b t IH]; intros a i; simpl.
  - split; [tauto|]. intros [_ H]. destruct (i - a)%nat; discriminate.
  - destruct b; simpl; rewrite ?IH.
    + split.
      * intros [<-|[H1 H2]].
        -- rewrite Nat.sub_diag. split; [lia|reflexivity].
        -- split; [lia|].
           replace (i - a)%nat with (S (i - S a)) by lia. exact H2.
      * intros [H1 H2].
        destruct (Nat.eq_dec a i) as [E|N]; [left; exact E|right].
        split; [lia|].
        replace (i - a)%nat with (S (i - S a)) in H2 by lia. exact H2.
    + split.
      * intros [H1 H2]. split; [lia|].
        replace (i - a)%nat with (S (i - S a)) by lia. exact H2.
      * intros [H1 H2].
        destruct (i - a)%nat as [|n] eqn:E; [discriminate|].
        split; [lia|]. replace (i - S a)%nat with n by lia. exact H2.
Qed.

(** Membership in the detector's output. *)
Lemma detect_spec (s : list Q) (i : nat) :
  In i (detect s)
  <-> (7 < List.length s)%nat /\ (i < List.length s)%nat
      /\ exists w, window_at 7 s i = Some w
                   /\ is_anomaly_at (nth i s 0) (Some (window_mean w))
                        (Some (Sqrt (window_var w))) = true.
Proof.
  unfold detect. destruct (7 <? List.length s)%nat eqn:E.
  - apply Nat.ltb_lt in E. rewrite flagged_from_spec, Nat.sub_0_r.
    split.
    + intros [_ H].
      assert (Hi : (i < List.length s)%nat).
      { destruct (Nat.lt_ge_cases i (List.length s)) as [L|G]; [exact L|].
        rewrite nth_overflow in H by (rewrite is_anomaly_length; exact G).
        discriminate. }
      rewrite is_anomaly_nth in H by exact Hi.
      split; [exact E|]. split; [exact Hi|].
      destruct (window_at 7 s i) as [w|]; [|discriminate].
      exists w. split; [reflexivity|exact H].
    + intros (_ & Hi & w & Hw & H). split; [lia|].
      rewrite is_anomaly_nth by exact Hi. rewrite Hw. exact H.
  - apply Nat.ltb_ge in E. simpl. split; [tauto|]. intros [H _]. lia.
Qed.


Lemma detect_needs_history (s : list Q) (i : nat) :
  (i < 6)%nat -> ~ In i (detect s).
Proof.
  intros Hi H. apply detect_spec in H as (_ & _ & w & Hw & _).
  rewrite window_at_none in Hw by lia. discriminate.
Qed.




(** *** Points on the band and constant series *)








End AnomalyFacts.

(** ** Ranked tables *)

Module RankingFacts.

Lemma fleb_total (x y : float) :
  x <> NaN -> y <> NaN -> fleb x y = false -> fleb y x = true.
Proof.
  destruct x as [a|[|]|], y as [b|[|]|]; simpl; intros Hx Hy H;
    try congruence; try reflexivity.
  destruct (Qle_bool b a) eqn:E; [reflexivity|].
  assert (L : ~ a <= b) by (rewrite <- Qle_bool_iff; congruence).
  assert (G : ~ b <= a) by (rewrite <- Qle_bool_iff; congruence).
  exfalso. apply L. apply Qnot_lt_le. intro C. apply G, Qlt_le_weak, C.
Qed.

Lemma desc_before_total (x y : float) :
  desc_before x y = false -> desc_before y x = true.
Proof.
  destruct x as [a|s|], y as [b|t|]; cbn [desc_before]; intro H;
    try congruence; try reflexivity;
    apply fleb_total; try discriminate; exact H.
Qed.

Lemma fleb_trans (x y z : float) :
  fleb x y = true -> fleb y z = true -> fleb x z = true.
Proof.
  destruct x as [a|[|]|], y as [b|[|]|], z as [c|[|]|]; simpl;
    intros H1 H2; try congruence; try reflexivity.
  apply Qle_bool_iff. apply Qle_bool_iff in H1, H2.
  apply (Qle_trans _ _ _ H1 H2).
Qed.

Lemma desc_before_trans (x y z : float) :
  desc_before x y = true -> desc_before y z = true -> desc_before x z = true.
Proof.
  destruct x as [a|s|], y as [b|t|], z as [c|u|]; cbn [desc_before];
    intros H1 H2; try congruence; try reflexivity;
    eapply fleb_trans; eassumption.
Qed.

Section InsertionSort.

Context {A : Type} (by_ : A -> float).

Let before (a b : A) : Prop := desc_before (by_ a) (by_ b) = true.

Lemma insert_desc_perm (x : A) (l : list A) :
  Permutation (x :: l) (insert_desc by_ x l).
Proof.
  induction l as [|h t IH]; simpl; [apply Permutation_refl|].
  destruct (desc_before (by_ x) (by_ h)); [apply Permutation_refl|].
  eapply Permutation_trans; [apply perm_swap|].
  apply perm_skip, IH.
Qed.

Lemma insert_desc_sorted (x : A) (l : list A) :
  StronglySorted before l -> StronglySorted before (insert_desc by_ x l).
Proof.
  induction 1 as [|h t Hs IH Hh]; simpl.
  - constructor; constructor.
  - destruct (desc_before (by_ x) (by_ h)) eqn:E.
    + constructor; [constructor; assumption|].
      constructor; [exact E|].
      eapply Forall_impl; [|exact Hh].
      intros b Hb. unfold before in *.
      eapply desc_before_trans; eassumption.
    + constructor; [exact IH|].
      eapply Permutation_Forall; [apply insert_desc_perm|].
      constructor; [|exact Hh].
      apply desc_before_total, E.
Qed.

Lemma stable_sort_desc_perm (l : list A) :
  Permutation l (stable_sort_desc A by_ l).
Proof.
  induction l as [|h t IH]; simpl; [constructor|].
  eapply Permutation_trans; [apply perm_skip, IH|].
  apply insert_desc_perm.
Qed.

Lemma stable_sort_desc_sorted (l : list A) :
  StronglySorted before (stable_sort_desc A by_ l).
Proof.
  induction l as [|h t IH]; simpl; [constructor|].
  apply insert_desc_sorted, IH.
Qed.

End InsertionSort.

Lemma stable_sort_contract : sort_values_contract stable_sort_desc.
Proof.
  intros A by_ l. split.
  - apply stable_sort_desc_perm.
  - apply stable_sort_desc_sorted.
Qed.


Lemma StronglySorted_impl {A} (R R' : A -> A -> Prop) (l : list A) :
  (forall a b, R a b -> R' a b) ->
  StronglySorted R l -> StronglySorted R' l.
Proof.
  intros H. induction 1 as [|h t Hs IH Hh]; constructor.
  - exact IH.
  - eapply Forall_impl; [|exact Hh]. intros b. apply H.
Qed.

Lemma desc_before_Fin (a b : Q) :
  desc_before (Fin a) (Fin b) = true <-> b <= a.
Proof. simpl. apply Qle_bool_iff. Qed.

(** The first row of a descending table carries the largest metric. *)
Lemma head_is_max {A} (R : A -> A -> Prop) (l l' : list A) (h : A) (t : list A) :
  (forall a, R a a) ->
  Permutation l l' -> StronglySorted R l' -> l' = h :: t ->
  forall r, In r l -> R h r.
Proof.
  intros Hrefl P S E r Hr. subst l'.
  apply (Permutation_in _ P) in Hr. inversion S as [|? ? _ F]; subst.
  destruct Hr as [<-|Hr]; [apply Hrefl|].
  rewrite Forall_forall in F. apply F, Hr.
Qed.




End RankingFacts.


(** ** Grouping: keys and totals *)

Module GroupByFacts.

Section Generic.

Context {K : Type} (cmp : K -> K -> comparison).
Hypothesis cmp_eq : forall a b, cmp a b = Eq <-> a = b.
Hypothesis cmp_antisym : forall a b, cmp a b = CompOpp (cmp b a).
Hypothesis cmp_trans :
  forall a b c, cmp a b = Lt -> cmp b c = Lt -> cmp a c = Lt.

Let klt (a b : K) : Prop := cmp a b = Lt.

Lemma key_eqb_eq (a b : K) : key_eqb cmp a b = true <-> a = b.
Proof.
  unfold key_eqb. rewrite <- cmp_eq.
  destruct (cmp a b); split; congruence.
Qed.

Lemma insert_key_In (k x : K) (ks : list K) :
  In x (insert_key cmp k ks) <-> x = k \/ In x ks.
Proof.
  induction ks as [|h t IH]; simpl.
  - split; [intros [H|[]]; left; congruence | intros [H|[]]; left; congruence].
  - destruct (cmp k h) eqn:E; simpl.
    + apply cmp_eq in E. subst h. split; [tauto|].
      intros [H|H]; [left; congruence | exact H].
    + split; [intros [H|H]; [left; congruence | right; exact H]|].
      intros [H|H]; [left; congruence | right; exact H].
    + rewrite IH. split; [tauto|]. tauto.
Qed.

Lemma insert_key_sorted (k : K) (ks : list K) :
  StronglySorted klt ks -> StronglySorted klt (insert_key cmp k ks).
Proof.
  induction 1 as [|h t Hs IH Hh]; simpl.
  - constructor; constructor.
  - destruct (cmp k h) eqn:E.
    + constructor; assumption.
    + constructor; [constructor; assumption|].
      constructor; [exact E|].
      eapply Forall_impl; [|exact Hh].
      intros b Hb. eapply cmp_trans; eassumption.
    + constructor; [exact IH|].
      apply Forall_forall. intros x Hx. apply insert_key_In in Hx.
      destruct Hx as [->|Hx].
      * unfold klt. rewrite cmp_antisym, E. reflexivity.
      * rewrite Forall_forall in Hh. apply Hh, Hx.
Qed.

Lemma group_keys_In (key : Row -> K) (df : DataFrame) (k : K) :
  In k (group_keys cmp key df) <-> exists r, In r df /\ key r = k.
Proof.
  unfold group_keys. induction df as [|r t IH]; simpl.
  - split; [tauto | intros (r & [] & _)].
  - rewrite insert_key_In, IH. split.
    + intros [->|(r' & Hr & E)].
      * exists r. split; [left; reflexivity|reflexivity].
      * exists r'. split; [right; exact Hr|exact E].
    + intros (r' & [<-|Hr] & E).
      * left. congruence.
      * right. exists r'. split; assumption.
Qed.

Lemma group_keys_sorted (key : Row -> K) (df : DataFrame) :
  StronglySorted klt (group_keys cmp key df).
Proof.
  unfold group_keys. induction df as [|r t IH]; simpl.
  - constructor.
  - apply insert_key_sorted, IH.
Qed.

Lemma klt_irrefl (a : K) : ~ klt a a.
Proof.
  unfold klt. intro H.
  rewrite (proj2 (cmp_eq a a) eq_refl) in H. discriminate.
Qed.

Lemma sorted_NoDup (ks : list K) : StronglySorted klt ks -> NoDup ks.
Proof.
  induction 1 as [|h t Hs IH Hh]; constructor.
  - intro Hin. rewrite Forall_forall in Hh.
    apply (klt_irrefl h), Hh, Hin.
  - exact IH.
Qed.

Lemma group_keys_NoDup (key : Row -> K) (df : DataFrame) :
  NoDup (group_keys cmp key df).
Proof. apply sorted_NoDup, group_keys_sorted. Qed.

Lemma group_of_In (key : Row -> K) (k : K) (df : DataFrame) (r : Row) :
  In r (group_of cmp key k df) <-> In r df /\ key r = k.
Proof.
  unfold group_of. rewrite filter_In, key_eqb_eq. tauto.
Qed.

(** A group listed by [groupby] is never empty. *)
Lemma groupby_nonempty (key : Row -> K) (df : DataFrame) (kg : K * DataFrame) :
  In kg (groupby cmp key df) -> snd kg <> [].
Proof.
  unfold groupby. rewrite in_map_iff. intros (k & <- & Hk). simpl.
  apply group_keys_In in Hk as (r & Hr & E).
  intro C.
  assert (H : In r (group_of cmp key k df)) by (apply group_of_In; tauto).
  rewrite C in H. exact H.
Qed.

Lemma indicator_sum (x : K) (v : Q) (ks : list K) :
  NoDup ks ->
  (In x ks ->
   qsum (map (fun k => if key_eqb cmp x k then v else 0) ks) == v)
  /\ (~ In x ks ->
      qsum (map (fun k => if key_eqb cmp x k then v else 0) ks) == 0).
Proof.
  induction 1 as [|h t Hh Hnd IH]; simpl.
  - split; [tauto|]. intros _. reflexivity.
  - destruct IH as [IH1 IH2].
    destruct (key_eqb cmp x h) eqn:E.
    + apply key_eqb_eq in E. subst h. split.
      * intros _. rewrite (IH2 Hh). ring.
      * intro N. exfalso. apply N. left. reflexivity.
    + assert (Nx : h <> x).
      { intro C. subst h.
        rewrite (proj2 (key_eqb_eq x x) eq_refl) in E. discriminate. }
      split.
      * intros [C|Hin]; [contradiction|]. rewrite (IH1 Hin). ring.
      * intro N. rewrite IH2 by tauto. ring.
Qed.

(** Summing a column group by group gives the column's total. *)
Lemma groups_sum (c : Row -> Q) (key : Row -> K) (ks : list K) (df : DataFrame) :
  NoDup ks ->
  (forall r, In r df -> In (key r) ks) ->
  qsum (map (fun k => col_sum c (group_of cmp key k df)) ks) == col_sum c df.
Proof.
  intros Hnd. induction df as [|r t IH]; intro Hcov.
  - unfold group_of, col_sum. simpl.
    induction ks as [|k ks' IHk]; simpl; [reflexivity|].
    rewrite IHk; [ring | inversion Hnd; assumption | intros ? []].
  - assert (Hcov' : forall r', In r' t -> In (key r') ks)
      by (intros r' Hr'; apply Hcov; right; exact Hr').
    specialize (IH Hcov').
    assert (Hr : In (key r) ks) by (apply Hcov; left; reflexivity).
    assert (S :
      qsum (map (fun k => col_sum c (group_of cmp key k (r :: t))) ks)
      == qsum (map (fun k => if key_eqb cmp (key r) k then c r else 0) ks)
         + qsum (map (fun k => col_sum c (group_of cmp key k t)) ks)).
    { clear. induction ks as [|k ks' IHk]; simpl; [ring|].
      rewrite IHk. unfold group_of at 1. simpl filter.
      destruct (key_eqb cmp (key r) k); unfold col_sum; simpl;
        fold (group_of cmp key k t); ring. }
    rewrite S, IH.
    rewrite (proj1 (indicator_sum (key r) (c r) ks Hnd) Hr).
    unfold col_sum. simpl. ring.
Qed.

Lemma groupby_total (c : Row -> Q) (key : Row -> K) (df : DataFrame) :
  qsum (map (fun kg => col_sum c (snd kg)) (groupby cmp key df))
  == col_sum c df.
Proof.
  unfold groupby. rewrite map_map. simpl.
  apply groups_sum.
  - apply group_keys_NoDup.
  - intros r Hr. apply group_keys_In. exists r. tauto.
Qed.

End Generic.

(** *** The orders used by the script's groupings *)

Lemma ascii_compare_trans (a b c : ascii) :
  Ascii.compare a b = Lt -> Ascii.compare b c = Lt -> Ascii.compare a c = Lt.
Proof.
  unfold Ascii.compare. rewrite !N.compare_lt_iff. apply N.lt_trans.
Qed.

Lemma string_compare_trans (a : string) :
  forall b c : string,
    String.compare a b = Lt -> String.compare b c = Lt ->
    String.compare a c = Lt.
Proof.
  induction a as [|x a IH]; intros [|y b] [|z c]; simpl;
    try discriminate; try reflexivity.
  destruct (Ascii.compare x y) eqn:E1; try discriminate.
  - apply Ascii.compare_eq_iff in E1. subst y.
    destruct (Ascii.compare x z) eqn:E2; try discriminate.
    + apply IH.
    + reflexivity.
  - intros _. destruct (Ascii.compare y z) eqn:E2; try discriminate.
    + apply Ascii.compare_eq_iff in E2. subst z. rewrite E1. reflexivity.
    + rewrite (ascii_compare_trans x y z E1 E2). reflexivity.
Qed.

Lemma string_compare_eq (a b : string) : String.compare a b = Eq <-> a = b.
Proof.
  split; [apply String.compare_eq_iff|].
  intros ->. apply AggregationFacts.string_compare_refl.
Qed.

Lemma Z_compare_trans (a b c : Z) :
  (a ?= b)%Z = Lt -> (b ?= c)%Z = Lt -> (a ?= c)%Z = Lt.
Proof. rewrite !Z.compare_lt_iff. apply Z.lt_trans. Qed.

Lemma Z_compare_antisym (a b : Z) : (a ?= b)%Z = CompOpp (b ?= a)%Z.
Proof. apply Z.compare_antisym. Qed.

End GroupByFacts.

(** ** Grouped tables: one row per key, totals preserved *)

Module GroupedTableFacts.

Import GroupByFacts.

Section Lexicographic.

Context {A B : Type} (cmpA : A -> A -> comparison) (cmpB : B -> B -> comparison).
Hypothesis eqA : forall a b, cmpA a b = Eq <-> a = b.
Hypothesis eqB : forall a b, cmpB a b = Eq <-> a = b.
Hypothesis antiA : forall a b, cmpA a b = CompOpp (cmpA b a).
Hypothesis antiB : forall a b, cmpB a b = CompOpp (cmpB b a).
Hypothesis transA :
  forall a b c, cmpA a b = Lt -> cmpA b c = Lt -> cmpA a c = Lt.
Hypothesis transB :
  forall a b c, cmpB a b = Lt -> cmpB b c = Lt -> cmpB a c = Lt.

Let lex := lex_compare cmpA cmpB.

Lemma lex_eq (x y : A * B) : lex x y = Eq <-> x = y.
Proof.
  destruct x as [a b], y as [a' b']. unfold lex, lex_compare. simpl.
  destruct (cmpA a a') eqn:E.
  - apply eqA in E. subst a'. rewrite eqB. split; congruence.
  - split; [discriminate|]. intro H. injection H as -> ->.
    rewrite (proj2 (eqA a' a') eq_refl) in E. discriminate.
  - split; [discriminate|]. intro H. injection H as -> ->.
    rewrite (proj2 (eqA a' a') eq_refl) in E. discriminate.
Qed.



End Lexicographic.

Lemma Z_compare_eq (a b : Z) : (a ?= b)%Z = Eq <-> a = b.
Proof. apply Z.compare_eq_iff. Qed.

Lemma string_compare_antisym (a b : string) :
  String.compare a b = CompOpp (String.compare b a).
Proof. apply String.compare_antisym. Qed.

Lemma sum_with_roas_keys {K} (cmp : K -> K -> comparison) (key : Row -> K)
    (df : DataFrame) :
  map agg_key (sum_with_roas cmp key df) = group_keys cmp key df.
Proof.
  unfold sum_with_roas, groupby. rewrite !map_map. simpl. apply map_id.
Qed.

Lemma sum_with_roas_spend {K} (cmp : K -> K -> comparison) (key : Row -> K)
    (df : DataFrame) :
  map agg_amount_spent (sum_with_roas cmp key df)
  = map (fun kg => col_sum amount_spent (snd kg)) (groupby cmp key df).
Proof. unfold sum_with_roas. rewrite map_map. reflexivity. Qed.


(** X1. The client table has one row per client of the view, in strictly
    ascending name order. *)
Theorem client_matrix_one_row_per_client (filtered : DataFrame) :
  StronglySorted (fun a b => String.compare a b = Lt)
                 (map agg_key (client_matrix filtered))
  /\ NoDup (map agg_key (client_matrix filtered))
  /\ (forall c : string,
        In c (map agg_key (client_matrix filtered))
        <-> exists r, In r filtered /\ client_name r = c)
  /\ (forall row, In row (client_matrix filtered) ->
        group_of String.compare client_name (agg_key row) filtered <> []).
Proof.
  unfold client_matrix. rewrite sum_with_roas_keys.
  split; [apply group_keys_sorted;
          [exact string_compare_eq | exact string_compare_antisym
           | exact string_compare_trans]|].
  split; [apply group_keys_NoDup;
          [exact string_compare_eq | exact string_compare_antisym
           | exact string_compare_trans]|].
  split; [intro c; apply group_keys_In; exact string_compare_eq|].
  intros row H. unfold sum_with_roas in H. apply in_map_iff in H.
  destruct H as (kg & <- & Hkg). simpl.
  pose proof (groupby_nonempty String.compare string_compare_eq
                client_name filtered kg Hkg) as N.
  apply AggregationFacts.in_groupby in Hkg. rewrite <- Hkg. exact N.
Qed.


(** X3. The daily trend (also the Daily Trend sheet of the export) has one
    row per date of the view, dates strictly increasing, and its spend and
    revenue columns sum to the export's Total Spend and Total Revenue. *)
Theorem daily_trend_dates_and_totals (df_source : DataFrame) :
  let daily := daily_data (generate_excel df_source) in
  daily = daily_trend df_source
  /\ StronglySorted Z.lt (map (fun row => fst (fst row)) daily)
  /\ (forall d : Timestamp_t,
        In d (map (fun row => fst (fst row)) daily)
        <-> exists r, In r df_source /\ created_date r = d)
  /\ qsum (map (fun row => snd (fst row)) daily)
     == col_sum amount_spent df_source
  /\ qsum (map snd daily) == col_sum purchase_value df_source.
Proof.
  simpl. split; [reflexivity|].
  assert (Kd : map (fun row : Timestamp_t * Q * Q => fst (fst row))
                   (daily_trend df_source)
               = group_keys Z.compare created_date df_source).
  { unfold daily_trend, groupby. rewrite !map_map. simpl. apply map_id. }
  rewrite Kd.
  split.
  { eapply RankingFacts.StronglySorted_impl.
    - intros a b H. apply Z.compare_lt_iff. exact H.
    - apply group_keys_sorted;
        [exact Z_compare_eq | exact Z_compare_antisym | exact Z_compare_trans]. }
  split; [intro d; apply group_keys_In; exact Z_compare_eq|].
  unfold daily_trend. rewrite !map_map. simpl.
  split; apply groupby_total;
    try exact Z_compare_eq; try exact Z_compare_antisym;
    try exact Z_compare_trans.
Qed.

End GroupedTableFacts.

(** ** The filter and its two periods *)

Module PeriodFacts.

Local Open Scope Z_scope.

Lemma filter_none {A} (f : A -> bool) (l : list A) :
  (forall x, In x l -> f x = false) -> filter f l = [].
Proof.
  induction l as [|x t IH]; intro H; simpl; [reflexivity|].
  rewrite (H x) by (left; reflexivity).
  apply IH. intros y Hy. apply H. right. exact Hy.
Qed.

Lemma filter_all {A} (f : A -> bool) (l : list A) :
  (forall x, In x l -> f x = true) -> filter f l = l.
Proof.
  induction l as [|x t IH]; intro H; simpl; [reflexivity|].
  rewrite (H x) by (left; reflexivity). f_equal.
  apply IH. intros y Hy. apply H. right. exact Hy.
Qed.

Lemma filter_split_sum (c : Row -> Q) (f g h : Row -> bool) (l : DataFrame) :
  (forall r, f r = g r || h r) -> (forall r, g r && h r = false) ->
  (col_sum c (filter f l)
   == col_sum c (filter g l) + col_sum c (filter h l))%Q
  /\ List.length (filter f l)
     = (List.length (filter g l) + List.length (filter h l))%nat.
Proof.
  intros Hor Hdis. unfold col_sum.
  induction l as [|r t [IHs IHl]]; simpl; [split; [ring|reflexivity]|].
  rewrite (Hor r). specialize (Hdis r).
  destruct (g r), (h r); simpl in *; try discriminate.
  - rewrite IHs, IHl. split; [ring|reflexivity].
  - rewrite IHs, IHl. split; [ring|lia].
  - split; assumption.
Qed.

(** X4. Selecting no client, selecting no objective, or giving a start
    after the end leaves the view empty; otherwise the view keeps rows of
    the store only, and filtering the view again changes nothing. *)
Theorem filter_empty_and_idempotent :
  (forall df ob a b, filtered_df df [] ob a b = [])
  /\ (forall df cl a b, filtered_df df cl [] a b = [])
  /\ (forall df cl ob a b, b < a -> filtered_df df cl ob a b = [])
  /\ (forall df cl ob a b r, In r (filtered_df df cl ob a b) -> In r df)
  /\ (forall df cl ob a b,
        filtered_df (filtered_df df cl ob a b) cl ob a b
        = filtered_df df cl ob a b).
Proof.
  split; [intros; apply filter_none; intros; reflexivity|].
  split.
  { intros. apply filter_none. intros x _. unfold mask. simpl.
    rewrite andb_false_r. reflexivity. }
  split.
  { intros df cl ob a b H. apply filter_none. intros x _.
    destruct (mask cl ob a b x) eqn:E; [|reflexivity].
    apply FilterFacts.mask_iff in E. unfold Timestamp_t in *. lia. }
  split.
  { intros df cl ob a b r H. apply filter_In in H. tauto. }
  intros. unfold filtered_df. apply filter_all.
  intros x H. apply filter_In in H. tauto.
Qed.

Lemma filter_empty_and_idempotent_witness :
  filtered_df zero_spend ["Client A"%string] ["Sales"%string]
    (Timestamp 2023 3 2) (Timestamp 2023 3 1) = [].
Proof.
  destruct filter_empty_and_idempotent as (_ & _ & H & _).
  apply H. reflexivity.
Defined.

Lemma mask_union (cl ob : list string) (a b : Timestamp_t) (r : Row) :
  mask cl ob (prev_start a b) b r = mask_prev cl ob a b r || mask cl ob a b r.
Proof.
  unfold mask_prev, mask.
  cbv [prev_end prev_start delta_days days_between Timedelta].
  unfold Timestamp_t in *.
  destruct (isin (client_name r) cl), (isin (campaign_objective r) ob);
    simpl; try reflexivity.
  destruct (Z.leb_spec (a - 1 - (b - a)) (created_date r)),
    (Z.leb_spec (created_date r) b), (Z.leb_spec (created_date r) (a - 1)),
    (Z.leb_spec a (created_date r)); simpl; try reflexivity; lia.
Qed.

Lemma mask_disjoint (cl ob : list string) (a b : Timestamp_t) (r : Row) :
  mask_prev cl ob a b r && mask cl ob a b r = false.
Proof.
  unfold mask_prev, mask. cbv [prev_end Timedelta].
  unfold Timestamp_t in *.
  destruct (Z.leb_spec (created_date r) (a - 1)),
    (Z.leb_spec a (created_date r));
    rewrite ?andb_false_r, ?andb_false_l; try reflexivity.
  lia.
Qed.

(** X5. The previous and the current period never share a row, and together
    they are the filter over the range from the previous start to the
    current end: row counts and column sums add up. *)
Theorem periods_tile_the_combined_range
    (df : DataFrame) (cl ob : list string) (a b : Timestamp_t) :
  (forall r, In r (prev_filtered_df df cl ob a b) ->
             ~ In r (filtered_df df cl ob a b))
  /\ (forall c : Row -> Q,
        col_sum c (filtered_df df cl ob (prev_start a b) b)
        == col_sum c (prev_filtered_df df cl ob a b)
           + col_sum c (filtered_df df cl ob a b))%Q
  /\ List.length (filtered_df df cl ob (prev_start a b) b)
     = (List.length (prev_filtered_df df cl ob a b)
        + List.length (filtered_df df cl ob a b))%nat.
Proof.
  split.
  - intros r Hp Hc. unfold prev_filtered_df, filtered_df in *.
    apply filter_In in Hp as [_ Hp]. apply filter_In in Hc as [_ Hc].
    pose proof (mask_disjoint cl ob a b r) as D.
    rewrite Hp, Hc in D. discriminate.
  - split.
    + intro c. apply (filter_split_sum c _ _ _ df (mask_union cl ob a b)
                        (mask_disjoint cl ob a b)).
    + apply (filter_split_sum amount_spent _ _ _ df (mask_union cl ob a b)
               (mask_disjoint cl ob a b)).
Qed.

(** X6. When the selected range starts at or before the first date of the
    store, as the default range does, the previous view is empty: the five
    headline deltas are unavailable and the cost-trend sentence is the
    "not available" one. *)
Theorem no_prior_period_at_first_date
    (df : DataFrame) (cl ob : list string) (a b : Timestamp_t) :
  (forall r, In r df -> a <= created_date r) ->
  prev_filtered_df df cl ob a b = []
  /\ headline_deltas (filtered_df df cl ob a b)
       (prev_filtered_df df cl ob a b)
     = [None; None; None; None; None]
  /\ cost_trend (filtered_df df cl ob a b) (prev_filtered_df df cl ob a b)
     = None.
Proof.
  intro H.
  assert (E : prev_filtered_df df cl ob a b = []).
  { apply filter_none. intros r Hr. specialize (H r Hr).
    destruct (mask_prev cl ob a b r) eqn:M; [|reflexivity].
    rewrite FilterFacts.mask_prev_is_mask in M.
    apply FilterFacts.mask_iff in M.
    cbv [prev_end Timedelta] in M. unfold Timestamp_t in *. lia. }
  rewrite E. split; [reflexivity|]. split; [|reflexivity].
  unfold headline_deltas.
  rewrite !MetricsFacts.calculate_delta_zero; reflexivity.
Qed.

Lemma no_prior_period_at_first_date_witness :
  prev_filtered_df two_sales ["Client A"%string] ["Sales"%string]
    (Timestamp 2023 3 1) (Timestamp 2023 3 2) = [].
Proof.
  apply (no_prior_period_at_first_date two_sales).
  intros r [<-|[<-|[]]]; vm_compute; discriminate.
Defined.

End PeriodFacts.

(** ** Cards, highlights and display *)

Module CardFacts.


(** X7. For a positive previous value the relative change has the sign of
    [current - previous], is 0 exactly when nothing changed, and is never
    below -100 for a non-negative current value; the point difference of a
    percentage-point metric has the same sign. *)
Theorem delta_sign_follows_change (c p : Q) :
  0 < p ->
  exists pc : Q,
    calculate_delta (Fin c) (Fin p) false = Some (Percent (Fin pc))
    /\ calculate_delta (Fin c) (Fin p) true = Some (Points (Fin (c - p)))
    /\ (0 < pc <-> p < c)
    /\ (pc == 0 <-> c == p)
    /\ (pc < 0 <-> c < p)
    /\ (0 <= c -> - (100) <= pc).
Proof.
  intro Hp.
  assert (Np : ~ p == 0) by (intro E; rewrite E in Hp; apply (Qlt_irrefl _ Hp)).
  exists ((c - p) / p * 100).
  split; [apply (MetricsFacts.calculate_delta_finite c p false Np)|].
  split; [apply (MetricsFacts.calculate_delta_finite c p true Np)|].
  assert (Hk : 0 < / p * 100).
  { apply Qmult_lt_0_compat; [apply Qinv_lt_0_compat, Hp|reflexivity]. }
  assert (E : (c - p) / p * 100 == / p * 100 * (c - p))
    by (unfold Qdiv; ring).
  assert (E2 : / p * 100 * (c - p) == / p * 100 * c - 100)
    by (field; exact Np).
  destruct (Qmult_pos_sign (/ p * 100) (c - p) Hk) as (S1 & S2 & S3).
  rewrite E. set (k := / p * 100) in *. clearbody k.
  split; [rewrite S1; split; intro H; lra|].
  split; [rewrite S2; split; intro H; lra|].
  split; [rewrite S3; split; intro H; lra|].
  intro Hc. rewrite E2.
  assert (0 <= k * c) by (apply Qmult_le_0_compat; [apply Qlt_le_weak, Hk|exact Hc]).
  lra.
Qed.

Lemma delta_sign_follows_change_witness :
  exists pc : Q,
    calculate_delta (Fin 3) (Fin 2) false = Some (Percent (Fin pc))
    /\ (0 < pc <-> 2 < 3).
Proof.
  destruct (delta_sign_follows_change 3 2) as (pc & H1 & _ & H2 & _).
  - reflexivity.
  - exists pc. split; assumption.
Defined.








End CardFacts.

(** ** Highlights and the simulator's choices *)

Module ChoiceFacts.

Import GroupByFacts.

Lemma unique_In (l : list string) (x : string) : In x (unique l) <-> In x l.
Proof.
  induction l as [|h t IH]; simpl; [tauto|].
  rewrite filter_In, IH, negb_true_iff, String.eqb_neq.
  destruct (string_dec h x) as [E|N]; [tauto|]. split.
  - intros [H|[H _]]; [left; exact H|right; exact H].
  - intros [H|H]; [left; exact H|right]. split; [exact H|congruence].
Qed.

Lemma unique_NoDup (l : list string) : NoDup (unique l).
Proof.
  induction l as [|h t IH]; simpl; constructor.
  - rewrite filter_In, negb_true_iff, String.eqb_neq. intros [_ H]. congruence.
  - apply NoDup_filter, IH.
Qed.

Lemma no_member_nil {A} (l : list A) : (forall x, ~ In x l) -> l = [].
Proof.
  destruct l as [|x t]; [reflexivity|].
  intro H. exfalso. apply (H x). left. reflexivity.
Qed.

(** X12. The target list of the client-to-client simulator holds every
    client of the view except the chosen source, each once; with a single
    client in the view it is empty, so no projection is computed. *)
Theorem target_opts_exclude_source
    (sort_desc : sorter) (filtered : DataFrame) (source_client : string) :
  sort_values_contract sort_desc ->
  (forall c : string,
      In c (target_opts sort_desc filtered source_client)
      <-> (exists r, In r filtered /\ client_name r = c)
          /\ c <> source_client)
  /\ NoDup (target_opts sort_desc filtered source_client)
  /\ ((forall r, In r filtered -> client_name r = source_client) ->
      target_opts sort_desc filtered source_client = []).
Proof.
  intro C.
  assert (M : forall c : string,
             In c (target_opts sort_desc filtered source_client)
             <-> (exists r, In r filtered /\ client_name r = c)
                 /\ c <> source_client).
  { intro c. unfold target_opts.
    rewrite filter_In, negb_true_iff, String.eqb_neq, unique_In.
    destruct (C _ agg_roas (client_matrix filtered)) as [P _].
    assert (K : In c (map agg_key (sort_desc _ agg_roas (client_matrix filtered)))
                <-> In c (map agg_key (client_matrix filtered))).
    { split; apply Permutation_in; apply Permutation_map;
        [apply Permutation_sym|]; exact P. }
    rewrite K. unfold client_matrix.
    rewrite GroupedTableFacts.sum_with_roas_keys.
    rewrite (group_keys_In String.compare string_compare_eq). tauto. }
  split; [exact M|].
  split; [unfold target_opts; apply NoDup_filter, unique_NoDup|].
  intro H. apply no_member_nil. intros c Hc.
  apply M in Hc as [(r & Hr & E) N]. apply N. rewrite <- E. apply H, Hr.
Qed.

Lemma target_opts_exclude_source_witness :
  target_opts stable_sort_desc two_sales "Client A" = [].
Proof.
  destruct (target_opts_exclude_source stable_sort_desc two_sales
              "Client A" RankingFacts.stable_sort_contract) as (_ & _ & H).
  apply H. intros r [<-|[<-|[]]]; reflexivity.
Defined.

Lemma col_sum_filter_bounds (c : Row -> Q) (f : Row -> bool) (l : DataFrame) :
  (forall r, In r l -> 0 <= c r) ->
  0 <= col_sum c (filter f l) /\ col_sum c (filter f l) <= col_sum c l.
Proof.
  unfold col_sum. induction l as [|r t IH]; intro H; simpl.
  - split; apply Qle_refl.
  - assert (Hr : 0 <= c r) by (apply H; left; reflexivity).
    destruct IH as [I1 I2]; [intros x Hx; apply H; right; exact Hx|].
    destruct (f r); simpl; split; lra.
Qed.

(** X13. For a non-empty view with non-negative revenues the dominance
    highlight names a client of the view whose summed revenue is the
    largest of all clients, and the share it reports lies between 0 and 100
    percent (0 when the view has no revenue). *)
Theorem dominance_is_largest_share
    (sort_desc : sorter) (filtered : DataFrame) :
  sort_values_contract sort_desc ->
  filtered <> [] ->
  (forall r, In r filtered -> 0 <= purchase_value r) ->
  exists (name : string) (pct : Q),
    dominance_pct sort_desc filtered = Some (name, Fin pct)
    /\ (exists r, In r filtered /\ client_name r = name)
    /\ (forall row, In row (client_matrix filtered) ->
          agg_purchase_value row
          <= col_sum purchase_value
               (group_of String.compare client_name name filtered))
    /\ 0 <= pct /\ pct <= 100
    /\ (0 < col_sum purchase_value filtered ->
        pct == col_sum purchase_value
                 (group_of String.compare client_name name filtered)
               / col_sum purchase_value filtered * 100).
Proof.
  intros C Hne Hpos.
  set (L := map (fun kg : string * DataFrame =>
                   (fst kg, col_sum purchase_value (snd kg)))
                (groupby String.compare client_name filtered)).
  destruct (C _ (fun kv : string * Q => Fin (snd kv)) L) as [P S].
  assert (HL : forall kv, In kv L ->
                 snd kv = col_sum purchase_value
                            (group_of String.compare client_name (fst kv)
                               filtered)
                 /\ exists r, In r filtered /\ client_name r = fst kv).
  { intros kv Hkv. unfold L, groupby in Hkv. rewrite map_map in Hkv.
    apply in_map_iff in Hkv as (k & <- & Hk). simpl. split; [reflexivity|].
    apply (group_keys_In String.compare string_compare_eq) in Hk. exact Hk. }
  destruct (sort_desc _ (fun kv : string * Q => Fin (snd kv)) L)
    as [|[name val] rest] eqn:E.
  { exfalso. destruct filtered as [|r0 t]; [congruence|].
    assert (I : In (client_name r0)
                  (group_keys String.compare client_name (r0 :: t))).
    { apply (group_keys_In String.compare string_compare_eq).
      exists r0. split; [left; reflexivity|reflexivity]. }
    assert (I' : In (client_name r0,
                     col_sum purchase_value
                       (group_of String.compare client_name (client_name r0)
                          (r0 :: t))) L).
    { unfold L, groupby. rewrite map_map. apply in_map_iff.
      exists (client_name r0). split; [reflexivity|exact I]. }
    apply (Permutation_in _ P) in I'. exact I'. }
  assert (Hh : In (name, val) L).
  { apply (Permutation_in _ (Permutation_sym P)). left. reflexivity. }
  destruct (HL _ Hh) as [Hval Hcli]. simpl in Hval, Hcli.
  assert (Hmax : forall kv, In kv L -> snd kv <= val).
  { intros kv Hkv.
    assert (R : desc_before (Fin val) (Fin (snd kv)) = true).
    { apply (RankingFacts.head_is_max
               (fun a b : string * Q =>
                  desc_before (Fin (snd a)) (Fin (snd b)) = true)
               L ((name, val) :: rest) (name, val) rest).
      - intro a. apply RankingFacts.desc_before_Fin, Qle_refl.
      - exact P.
      - exact S.
      - reflexivity.
      - exact Hkv. }
    apply RankingFacts.desc_before_Fin in R. exact R. }
  destruct (col_sum_filter_bounds purchase_value
              (fun r => key_eqb String.compare (client_name r) name)
              filtered Hpos) as [B1 B2].
  fold (group_of String.compare client_name name filtered) in B1, B2.
  rewrite <- Hval in B1, B2.
  assert (Em : empty filtered = false)
    by (destruct filtered; [congruence|reflexivity]).
  unfold dominance_pct, top_client_data. fold L.
  rewrite Em, E. simpl negb. simpl firstn. cbv iota beta.
  set (total := col_sum purchase_value filtered) in *.
  destruct (Qltb 0 total) eqn:T.
  - apply Qltb_lt in T. rewrite (fdiv_pos _ _ T). simpl fscale.
    exists name, (val / total * 100).
    split; [reflexivity|]. split; [exact Hcli|].
    split.
    { intros row Hrow. rewrite <- Hval.
      apply (Hmax (agg_key row, agg_purchase_value row)).
      unfold client_matrix, sum_with_roas in Hrow.
      apply in_map_iff in Hrow as (kg & <- & Hkg). simpl.
      unfold L. apply in_map_iff. exists kg. split; [reflexivity|exact Hkg]. }
    assert (I : 0 < / total) by (apply Qinv_lt_0_compat, T).
    assert (D : val / total * 100 == val * / total * 100) by reflexivity.
    assert (U : total * / total == 1)
      by (apply Qmult_inv_r; intro Z0; rewrite Z0 in T; apply (Qlt_irrefl _ T)).
    split; [rewrite D; nra|]. split; [rewrite D; nra|].
    intros _. rewrite Hval. reflexivity.
  - apply Qltb_ge in T.
    exists name, 0. split; [reflexivity|]. split; [exact Hcli|].
    split.
    { intros row Hrow. rewrite <- Hval.
      apply (Hmax (agg_key row, agg_purchase_value row)).
      unfold client_matrix, sum_with_roas in Hrow.
      apply in_map_iff in Hrow as (kg & <- & Hkg). simpl.
      unfold L. apply in_map_iff. exists kg. split; [reflexivity|exact Hkg]. }
    split; [apply Qle_refl|]. split; [discriminate|].
    intro H. exfalso. lra.
Qed.

Lemma dominance_is_largest_share_witness :
  exists (name : string) (pct : Q),
    dominance_pct stable_sort_desc two_sales = Some (name, Fin pct)
    /\ 0 <= pct /\ pct <= 100.
Proof.
  destruct (dominance_is_largest_share stable_sort_desc two_sales
              RankingFacts.stable_sort_contract)
    as (name & pct & H1 & _ & _ & H2 & H3 & _).
  - discriminate.
  - intros r [<-|[<-|[]]]; vm_compute; discriminate.
  - exists name, pct. repeat split; assumption.
Defined.

End ChoiceFacts.

(** ** Strategy figures *)

Module StrategyFacts.

Import GroupByFacts.

Lemma pct_fraction_bounds (transfer_pct : Z) :
  (0 <= transfer_pct <= 100)%Z ->
  0 <= inject_Z transfer_pct / 100 /\ inject_Z transfer_pct / 100 <= 1.
Proof.
  intros [H1 H2].
  assert (A : 0 <= inject_Z transfer_pct)
    by (change 0 with (inject_Z 0); rewrite <- Zle_Qle; exact H1).
  assert (B : inject_Z transfer_pct <= 100)
    by (change 100 with (inject_Z 100); rewrite <- Zle_Qle; exact H2).
  split.
  - apply Qle_shift_div_l; [reflexivity|lra].
  - apply Qle_shift_div_r; [reflexivity|lra].
Qed.

(** X14. For a percentage between 0 and 100 and non-negative inputs the
    transferred amount lies between 0 and the source spend and the revenue
    taken from the source is at most the source's own revenue; when that
    revenue is part of the global revenue, the projected global revenue and
    the projected global ROAS are not negative. *)
Theorem simulate_stays_within_budget
    (source_spend source_roas target_roas : Q) (transfer_pct : Z)
    (current_total_rev total_spend_global : Q) :
  let p := simulate source_spend source_roas target_roas transfer_pct
                    current_total_rev total_spend_global in
  (0 <= transfer_pct <= 100)%Z ->
  0 <= source_spend -> 0 <= source_roas -> 0 <= target_roas ->
  source_spend * source_roas <= current_total_rev ->
  0 <= transfer_amount p /\ transfer_amount p <= source_spend
  /\ 0 <= rev_lost p /\ rev_lost p <= source_spend * source_roas
  /\ 0 <= rev_gained p
  /\ 0 <= new_total_rev p
  /\ 0 <= new_global_roas p.
Proof.
  intros p Hpct Hs Hsr Htr Hrev.
  destruct (pct_fraction_bounds transfer_pct Hpct) as [F0 F1].
  subst p. unfold simulate. cbn [transfer_amount rev_lost rev_gained
    new_total_rev new_global_roas].
  set (f := inject_Z transfer_pct / 100) in *. clearbody f.
  assert (T0 : 0 <= source_spend * f) by (apply Qmult_le_0_compat; assumption).
  assert (T1 : source_spend * f <= source_spend) by nra.
  set (ta := source_spend * f) in *.
  assert (L0 : 0 <= ta * source_roas) by (apply Qmult_le_0_compat; assumption).
  assert (L1 : ta * source_roas <= source_spend * source_roas) by nra.
  assert (G0 : 0 <= ta * target_roas) by (apply Qmult_le_0_compat; assumption).
  split; [exact T0|]. split; [exact T1|]. split; [exact L0|].
  split; [exact L1|]. split; [exact G0|].
  assert (N : 0 <= current_total_rev + (ta * target_roas - ta * source_roas))
    by lra.
  split; [exact N|].
  destruct (Qltb 0 total_spend_global) eqn:E; [|apply Qle_refl].
  apply Qltb_lt in E. apply Qle_shift_div_l; [exact E|lra].
Qed.

Lemma simulate_stays_within_budget_witness :
  0 <= new_total_rev (simulate 1000000 (1 # 2) 2 50 3000000 2000000).
Proof.
  apply (simulate_stays_within_budget 1000000 (1 # 2) 2 50%Z 3000000 2000000);
    try discriminate; split; discriminate.
Defined.

(** X15. Moving 0 percent, or moving budget between two clients with the
    same ROAS, changes neither revenue nor global ROAS, and the verdict
    shown is then the negative one (the warning box), as it is for every
    projection that is not a strict gain. *)
Theorem no_gain_shows_warning
    (source_spend source_roas target_roas : Q) (transfer_pct : Z)
    (current_total_rev total_spend_global : Q) :
  let p := simulate source_spend source_roas target_roas transfer_pct
                    current_total_rev total_spend_global in
  (verdict p = true <-> 0 < net_revenue_impact p)
  /\ (transfer_pct = 0%Z \/ source_roas == target_roas ->
      net_revenue_impact p == 0
      /\ new_total_rev p == current_total_rev
      /\ new_global_roas p == old_global_roas p
      /\ verdict p = false).
Proof.
  intro p. split; [unfold verdict; apply Qltb_lt|].
  intro H.
  assert (N : net_revenue_impact p == 0).
  { subst p. simpl. destruct H as [->|E].
    - unfold Qdiv. simpl inject_Z. ring.
    - rewrite E. ring. }
  split; [exact N|].
  split; [subst p; simpl in *; lra|].
  split.
  - subst p. simpl in *. destruct (Qltb 0 total_spend_global); [|reflexivity].
    unfold Qdiv. 
    set (x := source_spend * (inject_Z transfer_pct * / 100) * target_roas
              - source_spend * (inject_Z transfer_pct * / 100) * source_roas)
      in *.
    assert (X : x == 0) by exact N. clearbody x. rewrite X. ring.
  - unfold verdict. apply Qltb_ge. rewrite N. apply Qle_refl.
Qed.

Lemma no_gain_shows_warning_witness :
  verdict (simulate 1000000 (1 # 2) 2 0 3000000 2000000) = false.
Proof.
  destruct (no_gain_shows_warning 1000000 (1 # 2) 2 0%Z 3000000 2000000)
    as [_ H].
  apply H. left. reflexivity.
Defined.

(** X16. For a non-empty view the quadrant's spend threshold is the view's
    total spend divided by the number of its clients. *)
Theorem avg_spend_is_total_over_clients (filtered : DataFrame) :
  filtered <> [] ->
  client_matrix filtered <> []
  /\ exists q : Q,
       avg_spend_client filtered = Fin q
       /\ q == col_sum amount_spent filtered / qlen (client_matrix filtered).
Proof.
  intro Hne.
  assert (N : client_matrix filtered <> []).
  { destruct filtered as [|r0 t]; [congruence|].
    intro E.
    assert (I : In (client_name r0)
                  (map agg_key (client_matrix (r0 :: t)))).
    { unfold client_matrix. rewrite GroupedTableFacts.sum_with_roas_keys.
      apply (group_keys_In String.compare string_compare_eq).
      exists r0. split; [left; reflexivity|reflexivity]. }
    rewrite E in I. exact I. }
  split; [exact N|].
  unfold avg_spend_client.
  rewrite mean_nonempty
    by (destruct (client_matrix filtered); [congruence|discriminate]).
  eexists. split; [reflexivity|].
  unfold qlen at 1. rewrite length_map. fold (qlen (client_matrix filtered)).
  assert (T : qsum (map agg_amount_spent (client_matrix filtered))
              == col_sum amount_spent filtered).
  { unfold client_matrix. rewrite GroupedTableFacts.sum_with_roas_spend.
    apply groupby_total;
      [exact string_compare_eq | exact GroupedTableFacts.string_compare_antisym
       | exact string_compare_trans]. }
  rewrite T. reflexivity.
Qed.

Lemma avg_spend_is_total_over_clients_witness :
  client_matrix two_sales <> [].
Proof.
  destruct (avg_spend_is_total_over_clients two_sales) as [H _].
  - discriminate.
  - exact H.
Defined.

(** X17. The Traffic-to-Sales simulation uses the view's blended Sales ROAS
    when the view has positive Sales spend, and otherwise the fixed 1.62
    while the Performance section shows a Sales-only ROAS of 0.  The
    projected gain is proportional to the percentage moved: nothing at 0
    percent, the Traffic spend times the benchmark at 100 percent. *)
Theorem sales_benchmark_and_gain (filtered : DataFrame) :
  (0 < col_sum amount_spent (sales_only_df filtered) ->
   roas_sales_only filtered = Fin (sales_roas_benchmark filtered))
  /\ (col_sum amount_spent (sales_only_df filtered) <= 0 ->
      sales_roas_benchmark filtered = 162 # 100
      /\ roas_sales_only filtered = Fin 0)
  /\ (sales_only_df filtered = [] ->
      sales_roas_benchmark filtered = 162 # 100)
  /\ (forall reallocation_pct : Z,
        potential_revenue_gain filtered reallocation_pct
        == inject_Z reallocation_pct / 100
           * potential_revenue_gain filtered 100)
  /\ potential_revenue_gain filtered 0 == 0
  /\ potential_revenue_gain filtered 100
     == traffic_spend filtered * sales_roas_benchmark filtered.
Proof.
  split.
  { intro H. unfold roas_sales_only, sales_roas_benchmark.
    apply Qltb_lt in H as Hb. rewrite Hb, andb_true_r.
    destruct (sales_only_df filtered) as [|r t] eqn:E.
    - exfalso. vm_compute in Hb. discriminate.
    - simpl. apply fdiv_pos, H. }
  split.
  { intro H. apply Qltb_ge in H. unfold roas_sales_only, sales_roas_benchmark.
    rewrite H, andb_false_r. split; reflexivity. }
  split.
  { intro E. unfold sales_roas_benchmark. rewrite E. reflexivity. }
  unfold potential_revenue_gain, budget_moved.
  split; [intro pct; field|].
  split; [unfold Qdiv; simpl inject_Z; ring|].
  field.
Qed.

Lemma sales_benchmark_and_gain_witness :
  roas_sales_only two_sales = Fin (sales_roas_benchmark two_sales).
Proof.
  destruct (sales_benchmark_and_gain two_sales) as [H _].
  apply H. reflexivity.
Defined.

End StrategyFacts.

(** ** Seasonality, best month and anomaly rows *)

Module TrendFacts.

Lemma col_mean_nil (c : Row -> Q) : col_mean c [] = NaN.
Proof. reflexivity. Qed.

Lemma qlen_pos {A} (l : list A) : l <> [] -> 0 < qlen l.
Proof. destruct l; [congruence|]. intros _. apply qlen_cons_pos. Qed.

(** X18. The Ramadhan and weekend lifts guard only the baseline: when the
    view has no baseline rows (or their mean revenue is not positive) the
    lift is 0; when it has no flagged rows but a positive baseline the lift
    is NaN; with both kinds of rows and a positive baseline it is the
    relative difference of the two means in percent. *)
Theorem lift_edge_cases (flag : Row -> bool) (filtered : DataFrame) :
  ((forall r, In r filtered -> flag r = true) -> lift flag filtered = Fin 0)
  /\ (filtered <> [] -> (forall r, In r filtered -> flag r = false) ->
      0 < col_sum purchase_value filtered ->
      lift flag filtered = NaN)
  /\ (filter flag filtered <> [] ->
      0 < col_sum purchase_value (filter (fun r => negb (flag r)) filtered) ->
      exists mf mo : Q,
         col_mean purchase_value (filter flag filtered) = Fin mf
         /\ col_mean purchase_value
              (filter (fun r => negb (flag r)) filtered) = Fin mo
         /\ 0 < mo
         /\ lift flag filtered = Fin ((mf - mo) / mo * 100)).
Proof.
  split.
  { intro H. unfold lift.
    rewrite (PeriodFacts.filter_none (fun r => negb (flag r)) filtered)
      by (intros r Hr; rewrite (H r Hr); reflexivity).
    reflexivity. }
  split.
  { intros Hne H Hpos. unfold lift.
    rewrite (PeriodFacts.filter_none flag filtered H).
    rewrite (PeriodFacts.filter_all (fun r => negb (flag r)) filtered)
      by (intros r Hr; rewrite (H r Hr); reflexivity).
    rewrite col_mean_nil.
    rewrite (MetricsFacts.col_mean_nonempty purchase_value filtered Hne).
    assert (P : 0 < col_sum purchase_value filtered / qlen filtered)
      by (apply Qlt_shift_div_l; [apply qlen_pos, Hne|lra]).
    simpl fgt0. apply Qltb_lt in P. rewrite P. reflexivity. }
  intros Hf Hpos. unfold lift.
  set (other := filter (fun r => negb (flag r)) filtered) in *.
  assert (Ho : other <> []).
  { intro E. rewrite E in Hpos. vm_compute in Hpos. discriminate. }
  rewrite (MetricsFacts.col_mean_nonempty purchase_value _ Hf).
  rewrite (MetricsFacts.col_mean_nonempty purchase_value _ Ho).
  assert (P : 0 < col_sum purchase_value other / qlen other)
    by (apply Qlt_shift_div_l; [apply qlen_pos, Ho|lra]).
  eexists. eexists. split; [reflexivity|]. split; [reflexivity|].
  split; [exact P|].
  simpl fgt0. apply Qltb_lt in P as Pb. rewrite Pb.
  simpl fsub. simpl fdivf. rewrite (fdiv_pos _ _ P). reflexivity.
Qed.

Lemma lift_edge_cases_witness :
  ramadhan_lift two_sales = NaN.
Proof.
  destruct (lift_edge_cases is_ramadhan two_sales) as (_ & H & _).
  apply H.
  - discriminate.
  - intros r [<-|[<-|[]]]; reflexivity.
  - reflexivity.
Defined.

(** *** [idxmax] *)

Lemma idxmax_from_spec (l : list Q) :
  forall (i bi : nat) (b : Q),
    (idxmax_from i bi b l = bi /\ Forall (fun x => x <= b) l)
    \/ (exists k : nat,
          idxmax_from i bi b l = (i + k)%nat
          /\ (k < List.length l)%nat
          /\ b < nth k l 0
          /\ (forall j, (j < k)%nat -> nth j l 0 < nth k l 0)
          /\ Forall (fun x => x <= nth k l 0) l).
Proof.
  induction l as [|x t IH]; intros i bi b; simpl.
  - left. split; [reflexivity|constructor].
  - destruct (Qltb b x) eqn:E.
    + apply Qltb_lt in E. right.
      destruct (IH (S i) i x) as [[R F]|(k & R & Hk & Hb & Hj & F)].
      * exists 0%nat. rewrite R, Nat.add_0_r. simpl.
        split; [reflexivity|]. split; [lia|]. split; [exact E|].
        split; [intros j Hj; lia|].
        constructor; [apply Qle_refl|exact F].
      * exists (S k). rewrite R. simpl.
        split; [lia|]. split; [lia|]. split; [lra|].
        split.
        -- intros [|j] Hj'; [exact Hb|apply Hj; lia].
        -- constructor; [lra|exact F].
    + apply Qltb_ge in E.
      destruct (IH (S i) bi b) as [[R F]|(k & R & Hk & Hb & Hj & F)].
      * left. split; [exact R|]. constructor; assumption.
      * right. exists (S k). rewrite R. simpl.
        split; [lia|]. split; [lia|]. split; [exact Hb|].
        split.
        -- intros [|j] Hj'; [lra|apply Hj; lia].
        -- constructor; [lra|exact F].
Qed.

Lemma idxmax_spec (l : list Q) (i : nat) :
  idxmax l = Some i ->
  (i < List.length l)%nat
  /\ (forall j, (j < List.length l)%nat -> nth j l 0 <= nth i l 0)
  /\ (forall j, (j < i)%nat -> nth j l 0 < nth i l 0).
Proof.
  destruct l as [|x t]; [discriminate|]. simpl. intro H. injection H as <-.
  destruct (idxmax_from_spec t 1 0 x) as [[R F]|(k & R & Hk & Hb & Hj & F)];
    rewrite R.
  - split; [lia|]. split; [|intros j Hj; lia].
    intros [|j] Hj; simpl; [apply Qle_refl|].
    rewrite Forall_forall in F. apply F, nth_In. lia.
  - simpl. split; [lia|]. split.
    + intros [|j] Hj'; simpl; [lra|].
      rewrite Forall_forall in F. apply F, nth_In. lia.
    + intros [|j] Hj'; simpl; [exact Hb|apply Hj; lia].
Qed.

(** X19. For a non-empty view the best month is a row of the monthly table
    whose revenue is at least that of every month, and strictly more than
    that of every earlier month: among months with equal revenue the
    earliest is taken. *)
Theorem best_month_is_first_maximum (filtered : DataFrame) :
  filtered <> [] ->
  exists (i : nat) (row : agg_row (Z * Z)),
    best_month_row filtered = Some row
    /\ nth_error (monthly_trend filtered) i = Some row
    /\ (forall r, In r (monthly_trend filtered) ->
          agg_purchase_value r <= agg_purchase_value row)
    /\ (forall j r, (j < i)%nat ->
          nth_error (monthly_trend filtered) j = Some r ->
          agg_purchase_value r < agg_purchase_value row).
Proof.
  intro Hne. unfold best_month_row.
  set (mt := monthly_trend filtered).
  assert (Nm : mt <> []).
  { destruct filtered as [|r0 t]; [congruence|]. intro E.
    assert (I : In (month r0) (map agg_key mt)).
    { unfold mt, monthly_trend.
      rewrite GroupedTableFacts.sum_with_roas_keys.
      apply (GroupByFacts.group_keys_In period_compare).
      - intros a b.
        apply (GroupedTableFacts.lex_eq Z.compare Z.compare
                 GroupedTableFacts.Z_compare_eq
                 GroupedTableFacts.Z_compare_eq).
      - exists r0. split; [left; reflexivity|reflexivity]. }
    rewrite E in I. exact I. }
  destruct (idxmax (map agg_purchase_value mt)) as [i|] eqn:E.
  - destruct (idxmax_spec _ _ E) as (Hi & Hmax & Hfirst).
    rewrite length_map in Hi, Hmax.
    destruct (nth_error mt i) as [row|] eqn:R;
      [|apply nth_error_None in R; lia].
    exists i, row. split; [reflexivity|]. split; [exact R|].
    assert (V : forall j r, nth_error mt j = Some r ->
                  nth j (map agg_purchase_value mt) 0 = agg_purchase_value r).
    { intros j r Hj.
      rewrite (nth_indep _ 0 (agg_purchase_value r))
        by (rewrite length_map; apply nth_error_Some; congruence).
      rewrite map_nth. f_equal. apply nth_error_nth, Hj. }
    split.
    + intros r Hr. apply In_nth_error in Hr as (j & Hj).
      rewrite <- (V j r Hj), <- (V i row R). apply Hmax.
      apply nth_error_Some. congruence.
    + intros j r Hj Hr. rewrite <- (V j r Hr), <- (V i row R).
      apply Hfirst, Hj.
  - exfalso. destruct mt; [congruence|discriminate].
Qed.

Lemma best_month_is_first_maximum_witness :
  exists row, best_month_row two_sales = Some row.
Proof.
  destruct (best_month_is_first_maximum two_sales) as (i & row & H & _).
  - discriminate.
  - exists row. exact H.
Defined.

(** *** Flagged positions *)

Lemma flagged_from_sorted (flags : list bool) :
  forall a : nat,
    StronglySorted lt (flagged_from a flags)
    /\ Forall (fun i => (a <= i < a + List.length flags)%nat)
              (flagged_from a flags).
Proof.
  induction flags as [|b t IH]; intro a; simpl.
  - split; constructor.
  - destruct (IH (S a)) as [Hs F].
    assert (F' : Forall (fun i => (a <= i < a + S (List.length t))%nat)
                        (flagged_from (S a) t)).
    { eapply Forall_impl; [|exact F]. intros i Hi. simpl in Hi. lia. }
    destruct b.
    + split.
      * constructor; [exact Hs|].
        eapply Forall_impl; [|exact F]. intros i Hi. simpl in Hi. lia.
      * constructor; [lia|exact F'].
    + split; [exact Hs|exact F'].
Qed.

(** X20. The detector reports positions in increasing order, each once,
    each at least 6 and inside the series; every row of the overview's
    anomaly table is a row of the daily trend. *)
Theorem anomalies_are_ordered_rows :
  (forall s : list Q,
      StronglySorted lt (detect s)
      /\ NoDup (detect s)
      /\ Forall (fun i => (6 <= i < List.length s)%nat) (detect s))
  /\ (forall (filtered : DataFrame) (row : Timestamp_t * Q * Q),
        In row (anomalies filtered) -> In row (daily_trend filtered)).
Proof.
  assert (A : forall s : list Q,
             StronglySorted lt (detect s)
             /\ Forall (fun i => (6 <= i < List.length s)%nat) (detect s)).
  { intro s. split.
    - unfold detect. destruct (7 <? List.length s)%nat; [|constructor].
      apply flagged_from_sorted.
    - apply Forall_forall. intros i Hi.
      destruct (Nat.lt_ge_cases i 6) as [L|G].
      + exfalso. apply (AnomalyFacts.detect_needs_history s i L Hi).
      + apply AnomalyFacts.detect_spec in Hi as (_ & Hlt & _). lia. }
  split.
  - intro s. destruct (A s) as [Hs F]. split; [exact Hs|]. split; [|exact F].
    clear F. induction Hs as [|h t Hs' IH Hh]; constructor.
    + intro Hin. rewrite Forall_forall in Hh. specialize (Hh h Hin). lia.
    + exact IH.
  - intros filtered row H. unfold anomalies in H.
    apply in_map_iff in H as (i & <- & Hi).
    destruct (A (map snd (daily_trend filtered))) as [_ F].
    rewrite Forall_forall in F. specialize (F i Hi).
    rewrite length_map in F. apply nth_In. lia.
Qed.

End TrendFacts.

(** ** Instances on the fixtures *)

Module FixtureFacts.

Lemma client_matrix_one_row_per_client_witness :
  group_of String.compare client_name "Client A"%string two_sales <> [].
Proof.
  destruct (GroupedTableFacts.client_matrix_one_row_per_client two_sales)
    as (_ & _ & _ & H).
  apply (H (mkAgg "Client A"%string 1000 400 (Fin (1000 / 400)))).
  vm_compute. left. reflexivity.
Defined.

Lemma daily_trend_dates_and_totals_witness :
  In (Timestamp 2023 3 2)
     (map (fun row : Timestamp_t * Q * Q => fst (fst row))
          (daily_data (generate_excel two_sales))).
Proof.
  destruct (GroupedTableFacts.daily_trend_dates_and_totals two_sales)
    as (_ & _ & H & _).
  apply H.
  exists (row (Timestamp 2023 3 2) "Client A" "Fashion" "Sales" 300 900 1000 30).
  split; [right; left; reflexivity|reflexivity].
Defined.

Lemma periods_tile_the_combined_range_witness :
  ~ In (row (Timestamp 2023 3 1) "Client A" "Fashion" "Sales" 100 100 1000 10)
       (filtered_df two_sales ["Client A"%string] ["Sales"%string]
          (Timestamp 2023 3 2) (Timestamp 2023 3 2)).
Proof.
  destruct (PeriodFacts.periods_tile_the_combined_range two_sales
              ["Client A"%string] ["Sales"%string]
              (Timestamp 2023 3 2) (Timestamp 2023 3 2)) as [H _].
  apply H. vm_compute. left. reflexivity.
Defined.


Lemma anomalies_are_ordered_rows_witness :
  In (Timestamp 2023 3 8, 50 + 0, 1000 + 0) (daily_trend spike_view).
Proof.
  destruct TrendFacts.anomalies_are_ordered_rows as [_ H].
  apply H. vm_compute. left. reflexivity.
Defined.

End FixtureFacts.
